(** * vroom-vroom: the canvas front end of the evolution simulation

    The repository holds two variants of the same front end:

    - [wasm_app/index.js]: one script that sizes the canvas once, extends the
      2D context with [fillAnimal] and [fillFood], and runs [redraw];
    - [index.js] with [simulation.js]: the class [SimulationView] (reset,
      fillAnimal, drawAnimals, fillFood, drawFood) and a [redraw] that also
      writes the generation statistics into the element [controllerText].

    Both drive the same engine ([lib_simulation_wasm]), which is not part of
    the repository and appears here as an interface.

    Conventions of the embedding.  JavaScript numbers that are pixel
    positions, angles, ratios and fitness values are real numbers ([R]) and
    the arithmetic on them is exact; the integer quantities of the DOM
    ([innerWidth], [clientWidth], the generation counters) are in [Z] and are
    printed in decimal.  A script is a function from the page to the page and
    a completion (normal, or an exception thrown); every call the scripts make
    to the host or to the engine is appended to the page's call log, in
    program order. *)

From Stdlib Require Import Reals Lra ZArith Lia String Ascii List Bool.
From Stdlib Require Import DecimalString.
Import ListNotations.

Local Open Scope R_scope.

(** ** Values exchanged with the engine *)

Module Animal.
Record t : Type := mk { x : R; y : R; rotation : R }.
End Animal.

Module Food.
Record t : Type := mk { x : R; y : R }.
End Food.

Record World : Type := mkWorld {
  animals : list Animal.t;
  food : list Food.t
}.

Module Statistics.
Record t : Type := mk {
  max_fitness : R;
  min_fitness : R;
  mean_fitness : R;
  std_fitness : R
}.
End Statistics.

(** A JavaScript statement either completes normally or throws. *)
Inductive completion (A : Type) : Type :=
| Normal (a : A)
| Thrown.
Arguments Normal {A} a.
Arguments Thrown {A}.

(** The engine, as the scripts use it.  [step] advances the simulation; the
    four accessors read it and leave it as it is.  Any of the five calls may
    throw. *)
Class Simulation (E : Type) : Type := {
  step : E -> completion E;
  world : E -> completion World;
  generation : E -> completion Z;
  generation_steps : E -> completion Z;
  prev_generation_statistics : E -> completion (option Statistics.t)
}.

(** ** The page *)

(** Calls made by the scripts, in the order they are made.  [CallFillAnimal]
    and [CallFillFood] mark the entry into the two drawing methods of the
    scripts themselves (they are what "a draw call" counts); the others are
    calls to the 2D context, to the engine and to the host. *)
Inductive call : Type :=
| BeginPath
| MoveTo (x y : R)
| LineTo (x y : R)
| Arc (x y radius startAngle endAngle : R)
| SetFillStyle (style : string)
| Fill
| ClearRect (x y w h : R)
| EngineStep
| EngineWorld
| EnginePrevGenerationStatistics
| EngineGeneration
| EngineGenerationSteps
| RequestAnimationFrame
| SetInnerHTML (html : string)
| CallFillAnimal (x y rotation : R)
| CallFillFood (x y : R).

Record Window : Type := mkWindow {
  devicePixelRatio : option R;   (* [None]: the property is undefined *)
  innerWidth : Z;
  innerHeight : Z
}.

(** The canvas element.  [width] and [height] are the dimensions of the
    backing store, which the host keeps as integers (see [set_width]);
    [clientWidth] and [clientHeight] are given by the layout. *)
Record Canvas : Type := mkCanvas {
  width : R;
  height : R;
  style_width : string;
  style_height : string;
  clientWidth : Z;
  clientHeight : Z
}.

Record Page (E : Type) : Type := mkPage {
  window : Window;
  canvas : Canvas;
  controllerText : string;       (* innerHTML of the element controllerText *)
  simulation : E;
  frameRequests : nat;           (* callbacks registered and not yet run *)
  calls : list call
}.
Arguments mkPage {E}.
Arguments window {E}.
Arguments canvas {E}.
Arguments controllerText {E}.
Arguments simulation {E}.
Arguments frameRequests {E}.
Arguments calls {E}.

(** ** Scripts *)

Definition JS (E A : Type) : Type := Page E -> Page E * completion A.

Definition ret {E A} (a : A) : JS E A := fun p => (p, Normal a).

Definition bind {E A B} (m : JS E A) (k : A -> JS E B) : JS E B :=
  fun p =>
    match m p with
    | (p', Normal a) => k a p'
    | (p', Thrown) => (p', Thrown)
    end.

Notation "x <- m ;; k" := (bind m (fun x => k))
  (at level 61, m at next level, right associativity).
Notation "m ;; k" := (bind m (fun _ => k))
  (at level 61, right associativity).

(** The page with the calls [l] appended to its log. *)
Definition log {E} (p : Page E) (l : list call) : Page E :=
  mkPage (window p) (canvas p) (controllerText p) (simulation p)
    (frameRequests p) (calls p ++ l).

Definition record {E} (c : call) : JS E unit :=
  fun p => (log p [c], Normal tt).

Definition getCanvas {E} : JS E Canvas := fun p => (p, Normal (canvas p)).

Definition setCanvas {E} (c : Canvas) : JS E unit :=
  fun p => (mkPage (window p) c (controllerText p) (simulation p)
              (frameRequests p) (calls p), Normal tt).

Definition getWindow {E} : JS E Window := fun p => (p, Normal (window p)).

(** [requestAnimationFrame(redraw)]: the host queues one more callback. *)
Definition requestAnimationFrame {E} : JS E unit :=
  record RequestAnimationFrame ;;
  fun p => (mkPage (window p) (canvas p) (controllerText p) (simulation p)
              (S (frameRequests p)) (calls p), Normal tt).

(** [controllerTextElement.innerHTML = html]. *)
Definition setInnerHTML {E} (html : string) : JS E unit :=
  record (SetInnerHTML html) ;;
  fun p => (mkPage (window p) (canvas p) html (simulation p)
              (frameRequests p) (calls p), Normal tt).

(** [for (const a of l) body(a)]. *)
Fixpoint for_of {E A} (l : list A) (body : A -> JS E unit) : JS E unit :=
  match l with
  | [] => ret tt
  | a :: l' => body a ;; for_of l' body
  end.

(** [for (let i = lo; i < hi; i++) body(i)]. *)
Fixpoint for_from {E} (i : nat) (count : nat) (body : nat -> JS E unit)
  : JS E unit :=
  match count with
  | O => ret tt
  | S count' => body i ;; for_from (S i) count' body
  end.

Definition for_lt {E} (lo hi : nat) (body : nat -> JS E unit) : JS E unit :=
  for_from lo (hi - lo) body.

(** *** Calls to the engine *)

Section EngineCalls.
Context {E : Type} `{Simulation E}.

(** [simulation.step()]; an engine that throws is left as it was. *)
Definition simulation_step : JS E unit :=
  record EngineStep ;;
  fun p =>
    match step (simulation p) with
    | Normal e' => (mkPage (window p) (canvas p) (controllerText p) e'
                      (frameRequests p) (calls p), Normal tt)
    | Thrown => (p, Thrown)
    end.

Definition query {A} (c : call) (f : E -> completion A) : JS E A :=
  record c ;; fun p => (p, f (simulation p)).

Definition simulation_world : JS E World := query EngineWorld world.
Definition simulation_generation : JS E Z := query EngineGeneration generation.
Definition simulation_generation_steps : JS E Z :=
  query EngineGenerationSteps generation_steps.
Definition simulation_prev_generation_statistics : JS E (option Statistics.t) :=
  query EnginePrevGenerationStatistics prev_generation_statistics.
End EngineCalls.

(** *** Numbers and strings *)

(** [a || 1] on a number that may be undefined: [undefined] and [0] are falsy. *)
Definition or_default (a : option R) (d : R) : R :=
  match a with
  | None => d
  | Some r => if Req_dec_T r 0 then d else r
  end.

(** Decimal text of an integer, as in [n + "px"] and [`${n}`]. *)
Definition Z_toString (n : Z) : string := NilZero.string_of_int (Z.to_int n).

(** The values held by [max_fitness] and its three siblings in [redraw]. *)
Inductive value : Type :=
| Null
| Num (r : R).

(** [text.replace(/\n/g, "<br>")]. *)
Definition newline : ascii := "010"%char.

Fixpoint replace_newlines (text : string) : string :=
  match text with
  | EmptyString => EmptyString
  | String c rest =>
      if Ascii.eqb c newline
      then String.append "<br>" (replace_newlines rest)
      else String c (replace_newlines rest)
  end.

Definition nl : string := String newline EmptyString.

(** *** Assignments to the properties of the canvas element

    [width] and [height] of a canvas are attributes of type unsigned long.
    The number assigned is truncated towards zero and reduced modulo 2^32;
    if the result is at most 2^31 - 1 it becomes the dimension, otherwise
    the dimension falls back to its default, 300 for the width and 150 for
    the height.  So a fraction is dropped and a negative size gives the
    default. *)
Definition truncate (r : R) : Z :=
  if Rle_dec 0 r then Int_part r else (- Int_part (- r))%Z.

Definition canvas_dimension (default : Z) (v : R) : Z :=
  let n := (truncate v mod 4294967296)%Z in
  if (n <=? 2147483647)%Z then n else default.

Definition set_width {E} (v : R) : JS E unit :=
  c <- getCanvas ;;
  setCanvas (mkCanvas (IZR (canvas_dimension 300 v)) (height c)
               (style_width c) (style_height c)
               (clientWidth c) (clientHeight c)).

Definition set_height {E} (v : R) : JS E unit :=
  c <- getCanvas ;;
  setCanvas (mkCanvas (width c) (IZR (canvas_dimension 150 v))
               (style_width c) (style_height c)
               (clientWidth c) (clientHeight c)).

(** [style.width] and [style.height]: the host drops a declaration whose
    value is not a valid length and keeps the former value.  The values the
    scripts assign are an integer followed by [px]; such a length is invalid
    when it is negative, that is when the text begins with a minus sign. *)
Definition valid_length (v : string) : bool :=
  match v with
  | String "-" _ => false
  | _ => true
  end.

Definition set_style_width {E} (v : string) : JS E unit :=
  c <- getCanvas ;;
  setCanvas (mkCanvas (width c) (height c)
               (if valid_length v then v else style_width c) (style_height c)
               (clientWidth c) (clientHeight c)).

Definition set_style_height {E} (v : string) : JS E unit :=
  c <- getCanvas ;;
  setCanvas (mkCanvas (width c) (height c) (style_width c)
               (if valid_length v then v else style_height c)
               (clientWidth c) (clientHeight c)).

(** ** wasm_app/index.js *)

Module WasmApp.
Section Script.
Context {E : Type} `{Simulation E}.

(** Lines 8 to 12: the canvas is sized once, when the script loads. *)
Definition size_viewport : JS E unit :=
  w <- getWindow ;;
  let viewportScale := or_default (devicePixelRatio w) 1 in
  c <- getCanvas ;;
  set_width (IZR (clientWidth c) * viewportScale) ;;
  c <- getCanvas ;;
  set_height (IZR (clientHeight c) * viewportScale) ;;
  c <- getCanvas ;;
  set_style_width (Z_toString (clientWidth c) ++ "px") ;;
  c <- getCanvas ;;
  set_style_height (Z_toString (clientHeight c) ++ "px").

Definition ANIMAL_SIZE : R := 0.015.
Definition FOOD_SIZE : R := 0.005.
Definition ANIMAL_COLOR : string := "gray".
Definition FOOD_COLOR : string := "green".

Definition fillAnimal (x y rotation : R) : JS E unit :=
  record (CallFillAnimal x y rotation) ;;
  viewport <- getCanvas ;;
  let size := ANIMAL_SIZE * width viewport in
  let headAngle := rotation in
  let leg1Angle := rotation + (14 * PI) / 18 in
  let leg2Angle := rotation - (14 * PI) / 18 in
  record BeginPath ;;
  record (MoveTo (x + cos headAngle * size) (y + sin headAngle * size)) ;;
  record (LineTo (x + cos leg1Angle * size) (y + sin leg1Angle * size)) ;;
  record (LineTo (x + cos leg2Angle * size) (y + sin leg2Angle * size)) ;;
  record (MoveTo (x + cos headAngle * size) (y + sin headAngle * size)) ;;
  record (SetFillStyle ANIMAL_COLOR) ;;
  record Fill.

Definition fillFood (x y : R) : JS E unit :=
  record (CallFillFood x y) ;;
  viewport <- getCanvas ;;
  let size := FOOD_SIZE * width viewport in
  record BeginPath ;;
  record (Arc x y size 0 (2 * PI)) ;;
  record (SetFillStyle FOOD_COLOR) ;;
  record Fill.

Definition draw_animals : JS E unit :=
  w <- simulation_world ;;
  for_of (animals w) (fun animal =>
    viewport <- getCanvas ;;
    fillAnimal (Animal.x animal * width viewport)
               (Animal.y animal * height viewport)
               (Animal.rotation animal)).

Definition draw_food : JS E unit :=
  w <- simulation_world ;;
  for_of (food w) (fun food =>
    viewport <- getCanvas ;;
    fillFood (Food.x food * width viewport) (Food.y food * height viewport)).

Definition redraw : JS E unit :=
  viewport <- getCanvas ;;
  record (ClearRect 0 0 (width viewport) (height viewport)) ;;
  simulation_step ;;
  draw_animals ;;
  draw_food ;;
  requestAnimationFrame.

(** Lines 67 to 69, after the sizing of the canvas. *)
Definition main : JS E unit :=
  size_viewport ;;
  draw_animals ;;
  draw_food ;;
  redraw.
End Script.
End WasmApp.

(** ** simulation.js: the class SimulationView *)

Module SimulationView.
Section Class.
Context {E : Type}.

Definition reset : JS E unit :=
  w <- getWindow ;;
  let pixelRatio := or_default (devicePixelRatio w) 1 in
  let size := Z.min (innerWidth w - 500) (innerHeight w - 50) in
  set_width (IZR size * pixelRatio) ;;
  set_height (IZR size * pixelRatio) ;;
  set_style_width (Z_toString size ++ "px") ;;
  set_style_height (Z_toString size ++ "px") ;;
  el <- getCanvas ;;
  record (ClearRect 0 0 (width el) (width el)).

Definition fillAnimal (x y rotation : R) : JS E unit :=
  record (CallFillAnimal x y rotation) ;;
  let ANIMAL_SIZE := 0.01 in
  let ANIMAL_COLOR := "#758b9e"%string in
  el <- getCanvas ;;
  let size := ANIMAL_SIZE * width el in
  let headAngle := rotation in
  let leg1Angle := rotation + (14 * PI) / 18 in
  let leg2Angle := rotation - (14 * PI) / 18 in
  record BeginPath ;;
  record (MoveTo (x + cos headAngle * size) (y + sin headAngle * size)) ;;
  record (LineTo (x + cos leg1Angle * size) (y + sin leg1Angle * size)) ;;
  record (LineTo (x + cos leg2Angle * size) (y + sin leg2Angle * size)) ;;
  record (MoveTo (x + cos headAngle * size) (y + sin headAngle * size)) ;;
  record (SetFillStyle ANIMAL_COLOR) ;;
  record Fill.

Definition drawAnimals (animals : list Animal.t) : JS E unit :=
  for_of animals (fun animal =>
    el <- getCanvas ;;
    fillAnimal (Animal.x animal * width el)
               (Animal.y animal * height el)
               (Animal.rotation animal)).

Definition fillFood (x y : R) : JS E unit :=
  record (CallFillFood x y) ;;
  let FOOD_SIZE := 0.003 in
  let FOOD_COLOR := "#b4a794"%string in
  el <- getCanvas ;;
  let size := FOOD_SIZE * width el in
  record BeginPath ;;
  record (Arc x y size 0 (2 * PI)) ;;
  record (SetFillStyle FOOD_COLOR) ;;
  record Fill.

Definition drawFood (food : list Food.t) : JS E unit :=
  for_of food (fun f =>
    el <- getCanvas ;;
    fillFood (Food.x f * width el) (Food.y f * height el)).
End Class.
End SimulationView.

(** ** index.js *)

Module Index.
Section Script.
Context {E : Type} `{Simulation E}.

(** The host's conversion of a number to text, used by the template
    literals on the fitness values. *)
Variable Number_toString : R -> string.

(** [`${v}`] *)
Definition toString (v : value) : string :=
  match v with
  | Null => "null"
  | Num r => Number_toString r
  end.

Definition setControllerText (text : string) : JS E unit :=
  let formattedText := replace_newlines text in
  setInnerHTML formattedText.

Definition redraw : JS E unit :=
  SimulationView.reset ;;
  for_lt 0 1 (fun i => simulation_step) ;;
  stats <- simulation_prev_generation_statistics ;;
  let max_fitness := Null in
  let min_fitness := Null in
  let mean_fitness := Null in
  let std_fitness := Null in
  let '(max_fitness, min_fitness, mean_fitness, std_fitness) :=
    match stats with
    | Some stats =>
        (Num (Statistics.max_fitness stats),
         Num (Statistics.min_fitness stats),
         Num (Statistics.mean_fitness stats),
         Num (Statistics.std_fitness stats))
    | None => (max_fitness, min_fitness, mean_fitness, std_fitness)
    end in
  w <- simulation_world ;;
  SimulationView.drawAnimals (animals w) ;;
  w <- simulation_world ;;
  SimulationView.drawFood (food w) ;;
  requestAnimationFrame ;;
  g <- simulation_generation ;;
  let text := ("Generation: " ++ Z_toString g ++ nl)%string in
  s <- simulation_generation_steps ;;
  let text := (text ++ "Generation steps: " ++ Z_toString s ++ nl ++ nl)%string in
  let text := (text ++ "Prev generation stats:" ++ nl)%string in
  let text := (text ++ "Max fitness: " ++ toString max_fitness ++ nl)%string in
  let text := (text ++ "Min fitness: " ++ toString min_fitness ++ nl)%string in
  let text := (text ++ "Mean fitness: " ++ toString mean_fitness ++ nl)%string in
  let text := (text ++ "Std fitness: " ++ toString std_fitness ++ nl)%string in
  setControllerText text.

Definition main : JS E unit := redraw.
End Script.
End Index.


(** ** The host *)

(** *** The frame loop

    The host runs the queued callbacks one at a time, at most [frames] of
    them; a callback that throws is abandoned and the exception is reported,
    nothing more. *)
Fixpoint animate {E} (redraw : JS E unit) (frames : nat) (p : Page E) : Page E :=
  match frames with
  | O => p
  | S frames' =>
      match frameRequests p with
      | O => p
      | S pending =>
          animate redraw frames'
            (fst (redraw (mkPage (window p) (canvas p) (controllerText p)
                            (simulation p) pending (calls p))))
      end
  end.

(** *** The 2D context

    What the calls of the log do to the 2D context: the current path is a
    list of subpaths, [moveTo] starts a subpath, [lineTo] and [arc] extend the
    last one, [fill] paints the current path with the current fill style.
    When a path is filled every subpath is closed by a straight line from its
    last point to its first, and a subpath of a single point paints nothing. *)
Inductive pathelt : Type :=
| Point (x y : R)
| ArcOf (x y radius startAngle endAngle : R).

Definition subpath : Type := list pathelt.

Inductive painting : Type :=
| Filled (region : list subpath) (style : string)
| Cleared (x y w h : R).

Record Context2D : Type := mkContext2D {
  path : list subpath;
  fillStyle : string;
  painted : list painting
}.

Fixpoint extend (path : list subpath) (e : pathelt) : list subpath :=
  match path with
  | [] => [[e]]
  | [sp] => [sp ++ [e]]
  | sp :: rest => sp :: extend rest e
  end.

Definition paintable (sp : subpath) : bool :=
  match sp with
  | [] => false
  | [Point _ _] => false
  | _ => true
  end.

Definition context_step (c : Context2D) (k : call) : Context2D :=
  match k with
  | BeginPath => mkContext2D [] (fillStyle c) (painted c)
  | MoveTo x y => mkContext2D (path c ++ [[Point x y]]) (fillStyle c) (painted c)
  | LineTo x y => mkContext2D (extend (path c) (Point x y)) (fillStyle c) (painted c)
  | Arc x y r a0 a1 =>
      mkContext2D (extend (path c) (ArcOf x y r a0 a1)) (fillStyle c) (painted c)
  | SetFillStyle s => mkContext2D (path c) s (painted c)
  | Fill =>
      mkContext2D (path c) (fillStyle c)
        (painted c ++ [Filled (filter paintable (path c)) (fillStyle c)])
  | ClearRect x y w h =>
      mkContext2D (path c) (fillStyle c) (painted c ++ [Cleared x y w h])
  | _ => c
  end.

Definition render_from (c : Context2D) (l : list call) : Context2D :=
  fold_left context_step l c.

Definition render (l : list call) : Context2D :=
  render_from (mkContext2D [] "#000000" []) l.

(** The closed outline of a polygon: its sides, the last one back to the
    first vertex. *)
Definition outline (vs : list (R * R)) : list ((R * R) * (R * R)) :=
  match vs with
  | [] => []
  | v :: rest => combine vs (rest ++ [v])
  end.

Definition vertices (sp : subpath) : list (R * R) :=
  flat_map (fun e => match e with Point x y => [(x, y)] | ArcOf _ _ _ _ _ => [] end) sp.

(** The last point given to the path. *)
Definition pen (c : Context2D) : option pathelt :=
  match last (path c) [] with
  | [] => None
  | e :: sp => Some (last sp e)
  end.

(** *** Pixels

    [covers] is the host's rule for which points a filled region covers; a
    painting replaces the colour of the points it covers and a cleared
    rectangle removes it. *)
Section Pixels.
Variable covers : list subpath -> R * R -> bool.

Definition bitmap : Type := R * R -> option string.

Definition in_rect (x y w h : R) (pt : R * R) : bool :=
  if Rle_dec x (fst pt) then
    if Rle_dec (fst pt) (x + w) then
      if Rle_dec y (snd pt) then
        if Rle_dec (snd pt) (y + h) then true else false
      else false
    else false
  else false.

Definition paint_on (b : bitmap) (s : painting) : bitmap :=
  fun pt =>
    match s with
    | Filled region style => if covers region pt then Some style else b pt
    | Cleared x y w h => if in_rect x y w h pt then None else b pt
    end.

Definition pixels (ps : list painting) : bitmap :=
  fold_left paint_on ps (fun _ => None).
End Pixels.

(** ** A stub engine

    An engine with a fixed world and fixed counters, which can be told to
    throw in one of its calls.  It stands for the wasm module in the examples
    below. *)
Inductive fault : Type :=
| NoFault
| StepThrows
| WorldThrows
| StatisticsThrow
| GenerationThrows
| GenerationStepsThrows.

Record Stub : Type := mkStub {
  stub_world : World;
  stub_generation : Z;
  stub_generation_steps : Z;
  stub_statistics : option Statistics.t;
  stub_fault : fault
}.

#[export] Instance Stub_Simulation : Simulation Stub := {
  step e :=
    match stub_fault e with
    | StepThrows => Thrown
    | _ => Normal (mkStub (stub_world e) (stub_generation e)
                     (stub_generation_steps e + 1) (stub_statistics e)
                     (stub_fault e))
    end;
  world e :=
    match stub_fault e with
    | WorldThrows => Thrown
    | _ => Normal (stub_world e)
    end;
  generation e :=
    match stub_fault e with
    | GenerationThrows => Thrown
    | _ => Normal (stub_generation e)
    end;
  generation_steps e :=
    match stub_fault e with
    | GenerationStepsThrows => Thrown
    | _ => Normal (stub_generation_steps e)
    end;
  prev_generation_statistics e :=
    match stub_fault e with
    | StatisticsThrow => Thrown
    | _ => Normal (stub_statistics e)
    end
}.

Definition stub_page (e : Stub) : Page Stub :=
  mkPage (mkWindow (Some 2) 900 450)
         (mkCanvas 300 150 EmptyString EmptyString 400 400)
         EmptyString e 0 [].

Definition two_animals_one_food : World :=
  mkWorld [Animal.mk 0.5 0.25 0; Animal.mk 1.5 (-0.25) PI]
          [Food.mk 0.75 0.5].

Definition stub (f : fault) : Stub :=
  mkStub two_animals_one_food 3 40 None f.



Definition one_animal_inside : World :=
  mkWorld [Animal.mk 0.5 0.25 0] [].


(** ** The drawing methods, as the specification words them *)

(** The point at distance [radius] from [(cx, cy)] in the direction [angle]. *)
Definition vertex (cx cy radius angle : R) : R * R :=
  (cx + cos angle * radius, cy + sin angle * radius).

Definition distance (a b : R * R) : R :=
  sqrt ((fst b - fst a) * (fst b - fst a) + (snd b - snd a) * (snd b - snd a)).

Definition moveTo (v : R * R) : call := MoveTo (fst v) (snd v).
Definition lineTo (v : R * R) : call := LineTo (fst v) (snd v).
Definition point (v : R * R) : pathelt := Point (fst v) (snd v).

(** An agent: head at [rotation], legs at [rotation + 7π/9] and
    [rotation - 7π/9], joined head, leg1, leg2, back at the head, filled. *)
Definition agent_calls (size : R) (color : string) (cx cy rotation : R)
  : list call :=
  let head := vertex cx cy size rotation in
  let leg1 := vertex cx cy size (rotation + 7 * PI / 9) in
  let leg2 := vertex cx cy size (rotation - 7 * PI / 9) in
  [BeginPath; moveTo head; lineTo leg1; lineTo leg2; moveTo head;
   SetFillStyle color; Fill].

(** A food item: a full circle around [(cx, cy)], filled. *)
Definition food_calls (size : R) (color : string) (cx cy : R) : list call :=
  [BeginPath; Arc cx cy size 0 (2 * PI); SetFillStyle color; Fill].

(** The calls of one agent and of one food item on a canvas. *)
Definition animal_on (size : R) (color : string) (c : Canvas) (a : Animal.t)
  : list call :=
  CallFillAnimal (Animal.x a * width c) (Animal.y a * height c)
    (Animal.rotation a)
  :: agent_calls (size * width c) color (Animal.x a * width c)
       (Animal.y a * height c) (Animal.rotation a).

Definition food_on (size : R) (color : string) (c : Canvas) (f : Food.t)
  : list call :=
  CallFillFood (Food.x f * width c) (Food.y f * height c)
  :: food_calls (size * width c) color (Food.x f * width c)
       (Food.y f * height c).

(** The viewport: the ratio of device pixels to CSS pixels, the logical
    size of the square canvas of [SimulationView], and the canvas after
    [reset]. *)
Definition pixel_ratio (w : Window) : R := or_default (devicePixelRatio w) 1.

Definition logical_size (w : Window) : Z :=
  Z.min (innerWidth w - 500) (innerHeight w - 50).

Definition kept_length (text former : string) : string :=
  if valid_length text then text else former.

Definition reset_canvas (w : Window) (c : Canvas) : Canvas :=
  mkCanvas (IZR (canvas_dimension 300 (IZR (logical_size w) * pixel_ratio w)))
           (IZR (canvas_dimension 150 (IZR (logical_size w) * pixel_ratio w)))
           (kept_length (Z_toString (logical_size w) ++ "px") (style_width c))
           (kept_length (Z_toString (logical_size w) ++ "px") (style_height c))
           (clientWidth c) (clientHeight c).

Definition sized_canvas (w : Window) (c : Canvas) : Canvas :=
  mkCanvas (IZR (canvas_dimension 300 (IZR (clientWidth c) * pixel_ratio w)))
           (IZR (canvas_dimension 150 (IZR (clientHeight c) * pixel_ratio w)))
           (kept_length (Z_toString (clientWidth c) ++ "px") (style_width c))
           (kept_length (Z_toString (clientHeight c) ++ "px") (style_height c))
           (clientWidth c) (clientHeight c).

(** The statistics panel: its lines, and the lines joined by a separator
    that follows each of them. *)
Definition fitness (stats : option Statistics.t)
  (field : Statistics.t -> R) : value :=
  match stats with
  | Some s => Num (field s)
  | None => Null
  end.

Definition stats_lines (shown : value -> string) (g s : Z)
  (stats : option Statistics.t) : list string :=
  [ "Generation: " ++ Z_toString g;
    "Generation steps: " ++ Z_toString s;
    EmptyString;
    "Prev generation stats:";
    "Max fitness: " ++ shown (fitness stats Statistics.max_fitness);
    "Min fitness: " ++ shown (fitness stats Statistics.min_fitness);
    "Mean fitness: " ++ shown (fitness stats Statistics.mean_fitness);
    "Std fitness: " ++ shown (fitness stats Statistics.std_fitness) ]%string.

Fixpoint join (sep : string) (lines : list string) : string :=
  match lines with
  | [] => EmptyString
  | l :: ls => (l ++ sep ++ join sep ls)%string
  end.

(** The calls of one frame of each script, when no call throws. *)
Definition wasm_frame (c : Canvas) (w : World) : list call :=
  [ClearRect 0 0 (width c) (height c); EngineStep; EngineWorld]
  ++ flat_map (animal_on 0.015 "gray" c) (animals w)
  ++ [EngineWorld]
  ++ flat_map (food_on 0.005 "green" c) (food w)
  ++ [RequestAnimationFrame].

(** The calls of wasm_app before its first frame. *)
Definition wasm_startup (c : Canvas) (w : World) : list call :=
  [EngineWorld]
  ++ flat_map (animal_on 0.015 "gray" c) (animals w)
  ++ [EngineWorld]
  ++ flat_map (food_on 0.005 "green" c) (food w).

Definition index_scheduled (c : Canvas) (w : World) : list call :=
  [ClearRect 0 0 (width c) (width c); EngineStep;
   EnginePrevGenerationStatistics; EngineWorld]
  ++ flat_map (animal_on 0.01 "#758b9e" c) (animals w)
  ++ [EngineWorld]
  ++ flat_map (food_on 0.003 "#b4a794" c) (food w)
  ++ [RequestAnimationFrame].

Definition index_frame (c : Canvas) (w : World) (html : string) : list call :=
  index_scheduled c w
  ++ [EngineGeneration; EngineGenerationSteps; SetInnerHTML html].

(** The content of the statistics panel after a frame of [index.js]. *)
Definition index_text (Number_toString : R -> string) (g s : Z)
  (stats : option Statistics.t) : string :=
  replace_newlines
    (join nl (stats_lines (Index.toString Number_toString) g s stats)).

(** A log [l] in which a call of kind [f] comes before a call of kind [g]. *)
Definition before (f g : call -> bool) (l : list call) : Prop :=
  exists l1 a l2 b l3,
    l = l1 ++ a :: l2 ++ b :: l3 /\ f a = true /\ g b = true.

Fixpoint beforeb (f g : call -> bool) (l : list call) : bool :=
  match l with
  | [] => false
  | a :: l' => (f a && existsb g l') || beforeb f g l'
  end.

(** The ways a frame can fail.  In wasm_app the engine is called for the
    step and for the world; in [index.js] the step, the statistics and the
    world are asked for before the next frame is scheduled, the two counters
    after. *)
Section Failures.
Context {E : Type} `{Simulation E}.

Definition wasm_fails (e : E) : Prop :=
  step e = Thrown \/ exists e', step e = Normal e' /\ world e' = Thrown.

Definition index_fails_before_scheduling (e : E) : Prop :=
  step e = Thrown
  \/ exists e', step e = Normal e' /\
       (prev_generation_statistics e' = Thrown
        \/ exists stats, prev_generation_statistics e' = Normal stats /\
             world e' = Thrown).

Definition index_fails_after_scheduling (e : E) : Prop :=
  exists e' stats w,
    step e = Normal e' /\ prev_generation_statistics e' = Normal stats /\
    world e' = Normal w /\
    (generation e' = Thrown
     \/ exists g, generation e' = Normal g /\ generation_steps e' = Thrown).
End Failures.

(** No newline character in a text. *)
Fixpoint no_newline (s : string) : bool :=
  match s with
  | EmptyString => true
  | String c rest => negb (Ascii.eqb c newline) && no_newline rest
  end.

(** A stand-in for the host's conversion of numbers to text, which agrees
    with it on the four numbers 1, 0.2, 0.5 and 0.1. *)
Definition four_numbers (r : R) : string :=
  if Req_dec_T r 1 then "1"
  else if Req_dec_T r 0.2 then "0.2"
  else if Req_dec_T r 0.5 then "0.5"
  else if Req_dec_T r 0.1 then "0.1"
  else "NaN".

(** The region an agent fills and the region a food item fills. *)
Definition agent_shape (size : R) (color : string) (cx cy rotation : R)
  : painting :=
  Filled [[point (vertex cx cy size rotation);
           point (vertex cx cy size (rotation + 7 * PI / 9));
           point (vertex cx cy size (rotation - 7 * PI / 9))]] color.

Definition food_shape (size : R) (color : string) (cx cy : R) : painting :=
  Filled [[ArcOf cx cy size 0 (2 * PI)]] color.

(** The calls a script issues when run from [p]. *)
Definition issued {E A} (m : JS E A) (p : Page E) : list call :=
  skipn (length (calls p)) (calls (fst (m p))).

Definition is_step (k : call) : bool :=
  match k with EngineStep => true | _ => false end.
Definition is_fillAnimal (k : call) : bool :=
  match k with CallFillAnimal _ _ _ => true | _ => false end.
Definition is_fillFood (k : call) : bool :=
  match k with CallFillFood _ _ => true | _ => false end.
Definition is_draw (k : call) : bool := is_fillAnimal k || is_fillFood k.
Definition is_clear (k : call) : bool :=
  match k with ClearRect _ _ _ _ => true | _ => false end.
Definition is_schedule (k : call) : bool :=
  match k with RequestAnimationFrame => true | _ => false end.
Definition is_present (k : call) : bool :=
  match k with SetInnerHTML _ => true | _ => false end.

Definition count (f : call -> bool) (l : list call) : nat :=
  length (filter f l).

(** What drawing an agent with [fillAnimal] at [(cx, cy)] with [rotation]
    on the page [p] amounts to, for a script whose agents have the size
    [ratio * width] and the colour [color]. *)
Definition agent_at {E} (fillAnimal : R -> R -> R -> JS E unit) (ratio : R)
  (color : string) (p : Page E) (cx cy rotation : R) : Prop :=
  let size := ratio * width (canvas p) in
  let head := vertex cx cy size rotation in
  let leg1 := vertex cx cy size (rotation + 7 * PI / 9) in
  let leg2 := vertex cx cy size (rotation - 7 * PI / 9) in
  let p1 := fst (fillAnimal cx cy rotation p) in
  let p2 := fst (fillAnimal cx cy rotation p1) in
  issued (fillAnimal cx cy rotation) p =
    [CallFillAnimal cx cy rotation; BeginPath; moveTo head; lineTo leg1;
     lineTo leg2; moveTo head; SetFillStyle color; Fill]
  /\ nth_error (issued (fillAnimal cx cy 0) p) 2 = Some (MoveTo (cx + size) cy)
  /\ distance (cx, cy) head = size
  /\ distance (cx, cy) leg1 = size
  /\ distance (cx, cy) leg2 = size
  /\ issued (fillAnimal cx cy rotation) p1 = issued (fillAnimal cx cy rotation) p
  /\ painted (render (calls p1)) =
       painted (render (calls p)) ++ [agent_shape size color cx cy rotation]
  /\ painted (render (calls p2)) =
       painted (render (calls p1)) ++ [agent_shape size color cx cy rotation]
  /\ forall covers pt,
       pixels covers (painted (render (calls p2))) pt =
       pixels covers (painted (render (calls p1))) pt.

(** The closed outlines of what a painting fills. *)
Definition filled_outlines (s : painting) : list (list ((R * R) * (R * R))) :=
  match s with
  | Filled region _ => map (fun sp => outline (vertices sp)) region
  | Cleared _ _ _ _ => []
  end.

(** The path an agent is drawn with, and what filling it paints. *)
Definition agent_path_at {E} (fillAnimal : R -> R -> R -> JS E unit)
  (ratio : R) (color : string) (p : Page E) (cx cy rotation : R) : Prop :=
  let size := ratio * width (canvas p) in
  let head := vertex cx cy size rotation in
  let leg1 := vertex cx cy size (rotation + 7 * PI / 9) in
  let leg2 := vertex cx cy size (rotation - 7 * PI / 9) in
  let earlier := render (calls p) in
  let later := render (calls (fst (fillAnimal cx cy rotation p))) in
  issued (fillAnimal cx cy rotation) p =
    [CallFillAnimal cx cy rotation; BeginPath; moveTo head; lineTo leg1;
     lineTo leg2; moveTo head; SetFillStyle color; Fill]
  /\ path later = [[point head; point leg1; point leg2]; [point head]]
  /\ pen later = Some (point head)
  /\ fillStyle later = color
  /\ painted later =
       painted earlier ++ [Filled [[point head; point leg1; point leg2]] color]
  /\ filled_outlines (Filled [[point head; point leg1; point leg2]] color) =
       [[(head, leg1); (leg1, leg2); (leg2, head)]].

(** The circle a food item is drawn with. *)
Definition food_at {E} (fillFood : R -> R -> JS E unit) (ratio : R)
  (color : string) (p : Page E) (cx cy : R) : Prop :=
  let size := ratio * width (canvas p) in
  let earlier := render (calls p) in
  let later := render (calls (fst (fillFood cx cy p))) in
  issued (fillFood cx cy) p =
    [CallFillFood cx cy; BeginPath; Arc cx cy size 0 (2 * PI);
     SetFillStyle color; Fill]
  /\ path later = [[ArcOf cx cy size 0 (2 * PI)]]
  /\ fillStyle later = color
  /\ painted later =
       painted earlier ++ [Filled [[ArcOf cx cy size 0 (2 * PI)]] color].

(** The points a log gives to the path with [moveTo] and [lineTo], in
    order. *)
Definition path_vertices (l : list call) : list (R * R) :=
  flat_map (fun k =>
              match k with
              | MoveTo x y => [(x, y)]
              | LineTo x y => [(x, y)]
              | _ => []
              end) l.

(** A point within the square of half side [d] around [(cx, cy)]; a point
    within the canvas widened by [m] on every side; an animal whose
    coordinates are fractions of the canvas. *)
Definition within_box (cx cy d : R) (v : R * R) : Prop :=
  cx - d <= fst v <= cx + d /\ cy - d <= snd v <= cy + d.

Definition within_margin (c : Canvas) (m : R) (v : R * R) : Prop :=
  - m <= fst v <= width c + m /\ - m <= snd v <= height c + m.

Definition in_unit_square (a : Animal.t) : Prop :=
  0 <= Animal.x a <= 1 /\ 0 <= Animal.y a <= 1.

(** What a frame paints on a canvas [c] for the world [w]: the cleared
    rectangle, the agents in the order of the engine, then the food. *)
Definition frame_picture (agent_ratio : R) (agent_color : string)
  (food_ratio : R) (food_color : string) (c : Canvas) (w : World)
  : list painting :=
  Cleared 0 0 (width c) (height c)
  :: map (fun a => agent_shape (agent_ratio * width c) agent_color
                     (Animal.x a * width c) (Animal.y a * height c)
                     (Animal.rotation a)) (animals w)
  ++ map (fun f => food_shape (food_ratio * width c) food_color
                     (Food.x f * width c) (Food.y f * height c)) (food w).

(** Invariants of the engine: states from which the calls of a frame do not
    throw and whose successor is such a state again; and states from which
    only [generation] throws. *)
Section Invariants.
Context {E : Type} `{Simulation E}.

Definition wasm_reliable (Inv : E -> Prop) : Prop :=
  forall e, Inv e ->
    (exists e', step e = Normal e' /\ Inv e')
    /\ (exists w, world e = Normal w).

Definition index_reliable (Inv : E -> Prop) : Prop :=
  forall e, Inv e ->
    (exists e', step e = Normal e' /\ Inv e')
    /\ (exists w, world e = Normal w)
    /\ (exists stats, prev_generation_statistics e = Normal stats)
    /\ (exists g, generation e = Normal g)
    /\ (exists s, generation_steps e = Normal s).

Definition generation_unavailable (Inv : E -> Prop) : Prop :=
  forall e, Inv e ->
    (exists e', step e = Normal e' /\ Inv e')
    /\ (exists w, world e = Normal w)
    /\ (exists stats, prev_generation_statistics e = Normal stats)
    /\ generation e = Thrown.
End Invariants.

(** The statistics element shows the counters and the statistics of the
    engine as it is now. *)
Definition panel_in_sync {E} `{Simulation E} (Number_toString : R -> string)
  (p : Page E) : Prop :=
  exists g s stats,
    generation (simulation p) = Normal g
    /\ generation_steps (simulation p) = Normal s
    /\ prev_generation_statistics (simulation p) = Normal stats
    /\ controllerText p = index_text Number_toString g s stats.

(** The number of newline characters of a text. *)
Fixpoint newlines (s : string) : nat :=
  match s with
  | EmptyString => O
  | String c rest =>
      if Ascii.eqb c newline then S (newlines rest) else newlines rest
  end.

(** ** Lemmas on scripts *)

Lemma log_nil {E} (p : Page E) : log p [] = p.
Proof. destruct p; unfold log; simpl; now rewrite app_nil_r. Qed.

Lemma log_log {E} (p : Page E) (l1 l2 : list call) :
  log (log p l1) l2 = log p (l1 ++ l2).
Proof. unfold log; simpl; now rewrite app_assoc. Qed.

Lemma bind_normal {E A B} (m : JS E A) (k : A -> JS E B) p p' a :
  m p = (p', Normal a) -> bind m k p = k a p'.
Proof. intros Hm; unfold bind; now rewrite Hm. Qed.

Lemma bind_thrown {E A B} (m : JS E A) (k : A -> JS E B) p p' :
  m p = (p', Thrown) -> bind m k p = (p', Thrown).
Proof. intros Hm; unfold bind; now rewrite Hm. Qed.

Lemma issued_log {E A} (m : JS E A) (p : Page E) l r :
  m p = (log p l, r) -> issued m p = l.
Proof.
  intros Hm; unfold issued; rewrite Hm; simpl.
  rewrite skipn_app, skipn_all, Nat.sub_diag; reflexivity.
Qed.

Lemma issued_calls {E A} (m : JS E A) (p : Page E) l :
  calls (fst (m p)) = calls p ++ l -> issued m p = l.
Proof.
  intros Hm; unfold issued; rewrite Hm.
  rewrite skipn_app, skipn_all, Nat.sub_diag; reflexivity.
Qed.

Lemma leg_angle : 14 * PI / 18 = 7 * PI / 9.
Proof. lra. Qed.

Lemma WasmApp_fillAnimal_run {E} (p : Page E) x y rotation :
  WasmApp.fillAnimal x y rotation p =
  (log p (CallFillAnimal x y rotation ::
          agent_calls (WasmApp.ANIMAL_SIZE * width (canvas p))
            WasmApp.ANIMAL_COLOR x y rotation), Normal tt).
Proof.
  unfold WasmApp.fillAnimal, bind, record, getCanvas; simpl.
  rewrite !log_log; simpl.
  unfold agent_calls, moveTo, lineTo, vertex; simpl.
  rewrite leg_angle; reflexivity.
Qed.

Lemma SimulationView_fillAnimal_run {E} (p : Page E) x y rotation :
  SimulationView.fillAnimal x y rotation p =
  (log p (CallFillAnimal x y rotation ::
          agent_calls (0.01 * width (canvas p)) "#758b9e" x y rotation),
   Normal tt).
Proof.
  unfold SimulationView.fillAnimal, bind, record, getCanvas; simpl.
  rewrite !log_log; simpl.
  unfold agent_calls, moveTo, lineTo, vertex; simpl.
  rewrite leg_angle; reflexivity.
Qed.

Lemma WasmApp_fillFood_run {E} (p : Page E) x y :
  WasmApp.fillFood x y p =
  (log p (CallFillFood x y ::
          food_calls (WasmApp.FOOD_SIZE * width (canvas p))
            WasmApp.FOOD_COLOR x y), Normal tt).
Proof.
  unfold WasmApp.fillFood, bind, record, getCanvas; simpl.
  rewrite !log_log; reflexivity.
Qed.

Lemma SimulationView_fillFood_run {E} (p : Page E) x y :
  SimulationView.fillFood x y p =
  (log p (CallFillFood x y ::
          food_calls (0.003 * width (canvas p)) "#b4a794" x y), Normal tt).
Proof.
  unfold SimulationView.fillFood, bind, record, getCanvas; simpl.
  rewrite !log_log; reflexivity.
Qed.

(** A loop whose body only appends calls appends them item after item. *)
Lemma for_of_log {E A} (body : A -> JS E unit) (f : Canvas -> A -> list call)
  (l : list A) :
  (forall a q, body a q = (log q (f (canvas q) a), Normal tt)) ->
  forall p, for_of l body p = (log p (flat_map (f (canvas p)) l), Normal tt).
Proof.
  intros Hbody; induction l as [|a l IH]; intros p; simpl.
  - unfold ret; now rewrite log_nil.
  - rewrite (bind_normal _ _ _ _ _ (Hbody a p)).
    rewrite IH, log_log; reflexivity.
Qed.

Lemma SimulationView_drawAnimals_run {E} (l : list Animal.t) (p : Page E) :
  SimulationView.drawAnimals l p =
  (log p (flat_map (animal_on 0.01 "#758b9e" (canvas p)) l), Normal tt).
Proof.
  unfold SimulationView.drawAnimals; apply for_of_log; intros a q.
  unfold bind, getCanvas; apply SimulationView_fillAnimal_run.
Qed.

Lemma SimulationView_drawFood_run {E} (l : list Food.t) (p : Page E) :
  SimulationView.drawFood l p =
  (log p (flat_map (food_on 0.003 "#b4a794" (canvas p)) l), Normal tt).
Proof.
  unfold SimulationView.drawFood; apply for_of_log; intros a q.
  unfold bind, getCanvas; apply SimulationView_fillFood_run.
Qed.

Section EngineLemmas.
Context {E : Type} `{Simulation E}.

Lemma query_run {A} (c : call) (f : E -> completion A) (p : Page E) :
  query c f p = (log p [c], f (simulation p)).
Proof. reflexivity. Qed.

Lemma simulation_step_normal (p : Page E) e' :
  step (simulation p) = Normal e' ->
  simulation_step p =
  (log (mkPage (window p) (canvas p) (controllerText p) e' (frameRequests p)
          (calls p)) [EngineStep], Normal tt).
Proof.
  intros Hs; unfold simulation_step, bind, record; simpl; now rewrite Hs.
Qed.

Lemma simulation_step_thrown (p : Page E) :
  step (simulation p) = Thrown ->
  simulation_step p = (log p [EngineStep], Thrown).
Proof.
  intros Hs; unfold simulation_step, bind, record; simpl; now rewrite Hs.
Qed.

Lemma WasmApp_draw_animals_normal (p : Page E) w :
  world (simulation p) = Normal w ->
  WasmApp.draw_animals p =
  (log p (EngineWorld ::
          flat_map (animal_on WasmApp.ANIMAL_SIZE WasmApp.ANIMAL_COLOR
                      (canvas p)) (animals w)), Normal tt).
Proof.
  intros Hw; unfold WasmApp.draw_animals, simulation_world.
  erewrite bind_normal by (rewrite query_run, Hw; reflexivity).
  rewrite (for_of_log _ (animal_on WasmApp.ANIMAL_SIZE WasmApp.ANIMAL_COLOR)).
  - rewrite log_log; reflexivity.
  - intros a q; unfold bind, getCanvas; apply WasmApp_fillAnimal_run.
Qed.

Lemma WasmApp_draw_animals_thrown (p : Page E) :
  world (simulation p) = Thrown ->
  WasmApp.draw_animals p = (log p [EngineWorld], Thrown).
Proof.
  intros Hw; unfold WasmApp.draw_animals, simulation_world.
  erewrite bind_thrown by (rewrite query_run, Hw; reflexivity).
  reflexivity.
Qed.

Lemma WasmApp_draw_food_normal (p : Page E) w :
  world (simulation p) = Normal w ->
  WasmApp.draw_food p =
  (log p (EngineWorld ::
          flat_map (food_on WasmApp.FOOD_SIZE WasmApp.FOOD_COLOR (canvas p))
            (food w)), Normal tt).
Proof.
  intros Hw; unfold WasmApp.draw_food, simulation_world.
  erewrite bind_normal by (rewrite query_run, Hw; reflexivity).
  rewrite (for_of_log _ (food_on WasmApp.FOOD_SIZE WasmApp.FOOD_COLOR)).
  - rewrite log_log; reflexivity.
  - intros a q; unfold bind, getCanvas; apply WasmApp_fillFood_run.
Qed.

Lemma WasmApp_draw_food_thrown (p : Page E) :
  world (simulation p) = Thrown ->
  WasmApp.draw_food p = (log p [EngineWorld], Thrown).
Proof.
  intros Hw; unfold WasmApp.draw_food, simulation_world.
  erewrite bind_thrown by (rewrite query_run, Hw; reflexivity).
  reflexivity.
Qed.
End EngineLemmas.

Lemma SimulationView_reset_run {E} (p : Page E) :
  SimulationView.reset p =
  (log (mkPage (window p) (reset_canvas (window p) (canvas p))
          (controllerText p) (simulation p) (frameRequests p) (calls p))
     [ClearRect 0 0 (width (reset_canvas (window p) (canvas p)))
                    (width (reset_canvas (window p) (canvas p)))],
   Normal tt).
Proof. reflexivity. Qed.

Lemma WasmApp_size_viewport_run {E} (p : Page E) :
  WasmApp.size_viewport p =
  (mkPage (window p) (sized_canvas (window p) (canvas p))
     (controllerText p) (simulation p) (frameRequests p) (calls p),
   Normal tt).
Proof. reflexivity. Qed.

Section FrameLemmas.
Context {E : Type} `{Simulation E}.

Lemma WasmApp_redraw_normal (p : Page E) e' w :
  step (simulation p) = Normal e' ->
  world e' = Normal w ->
  WasmApp.redraw p =
  (mkPage (window p) (canvas p) (controllerText p) e'
     (S (frameRequests p)) (calls p ++ wasm_frame (canvas p) w), Normal tt).
Proof.
  intros Hs Hw; unfold WasmApp.redraw, bind at 1, getCanvas.
  unfold bind at 1, record.
  erewrite bind_normal by (apply simulation_step_normal; exact Hs).
  erewrite bind_normal by (apply WasmApp_draw_animals_normal; exact Hw).
  erewrite bind_normal by (apply WasmApp_draw_food_normal; exact Hw).
  unfold requestAnimationFrame, bind, record, log, wasm_frame; simpl.
  rewrite <- !app_assoc; reflexivity.
Qed.
Lemma WasmApp_redraw_step_thrown (p : Page E) :
  step (simulation p) = Thrown ->
  WasmApp.redraw p =
  (log p [ClearRect 0 0 (width (canvas p)) (height (canvas p)); EngineStep],
   Thrown).
Proof.
  intros Hs; unfold WasmApp.redraw, bind at 1, getCanvas.
  unfold bind at 1, record.
  erewrite bind_thrown by (apply simulation_step_thrown; exact Hs).
  rewrite log_log; reflexivity.
Qed.

Lemma WasmApp_redraw_world_thrown (p : Page E) e' :
  step (simulation p) = Normal e' ->
  world e' = Thrown ->
  WasmApp.redraw p =
  (mkPage (window p) (canvas p) (controllerText p) e' (frameRequests p)
     (calls p ++ [ClearRect 0 0 (width (canvas p)) (height (canvas p));
                  EngineStep; EngineWorld]), Thrown).
Proof.
  intros Hs Hw; unfold WasmApp.redraw, bind at 1, getCanvas.
  unfold bind at 1, record.
  erewrite bind_normal by (apply simulation_step_normal; exact Hs).
  erewrite bind_thrown by (apply WasmApp_draw_animals_thrown; exact Hw).
  unfold log; simpl; rewrite <- !app_assoc; reflexivity.
Qed.
End FrameLemmas.

Lemma append_assoc (a b c : string) :
  ((a ++ b) ++ c = a ++ b ++ c)%string.
Proof. induction a as [|ch a IH]; simpl; [reflexivity | now rewrite IH]. Qed.

Lemma append_empty_r (a : string) : (a ++ EmptyString = a)%string.
Proof. induction a as [|ch a IH]; simpl; [reflexivity | now rewrite IH]. Qed.

Lemma replace_newlines_app (a b : string) :
  replace_newlines (a ++ b) = (replace_newlines a ++ replace_newlines b)%string.
Proof.
  induction a as [|ch a IH]; simpl; [reflexivity|].
  destruct (Ascii.eqb ch newline); simpl; now rewrite IH.
Qed.

Section IndexLemmas.
Context {E : Type} `{Simulation E}.
Variable Number_toString : R -> string.

Lemma setControllerText_run (text : string) (p : Page E) :
  Index.setControllerText text p =
  (mkPage (window p) (canvas p) (replace_newlines text) (simulation p)
     (frameRequests p) (calls p ++ [SetInnerHTML (replace_newlines text)]),
   Normal tt).
Proof. reflexivity. Qed.

Lemma code_text (a b c d : value) (g s : Z) :
  ((((((("Generation: " ++ Z_toString g ++ nl) ++
        "Generation steps: " ++ Z_toString s ++ nl ++ nl) ++
       "Prev generation stats:" ++ nl) ++
      "Max fitness: " ++ Index.toString Number_toString a ++ nl) ++
     "Min fitness: " ++ Index.toString Number_toString b ++ nl) ++
    "Mean fitness: " ++ Index.toString Number_toString c ++ nl) ++
   "Std fitness: " ++ Index.toString Number_toString d ++ nl)%string =
  join nl
    [ "Generation: " ++ Z_toString g;
      "Generation steps: " ++ Z_toString s;
      EmptyString;
      "Prev generation stats:";
      "Max fitness: " ++ Index.toString Number_toString a;
      "Min fitness: " ++ Index.toString Number_toString b;
      "Mean fitness: " ++ Index.toString Number_toString c;
      "Std fitness: " ++ Index.toString Number_toString d ]%string.
Proof.
  unfold join; rewrite !append_assoc, !append_empty_r; reflexivity.
Qed.

Ltac tidy :=
  unfold log;
  cbn [window canvas controllerText simulation frameRequests calls fst snd].

Ltac ask Hq :=
  erewrite bind_normal
    by (rewrite query_run; tidy; rewrite Hq; reflexivity);
  tidy.

Ltac ask_thrown Hq :=
  erewrite bind_thrown
    by (rewrite query_run; tidy; rewrite Hq; reflexivity);
  tidy.

Ltac index_start Hs :=
  unfold Index.redraw;
  unfold simulation_prev_generation_statistics, simulation_world,
    simulation_generation, simulation_generation_steps;
  erewrite bind_normal by apply SimulationView_reset_run;
  tidy;
  erewrite bind_normal;
  [| unfold for_lt; simpl for_from;
     erewrite bind_normal by (apply simulation_step_normal; exact Hs);
     reflexivity ];
  tidy.

Ltac index_draw Hw :=
  ask Hw;
  erewrite bind_normal by apply SimulationView_drawAnimals_run;
  tidy;
  ask Hw;
  erewrite bind_normal by apply SimulationView_drawFood_run;
  tidy;
  erewrite bind_normal by reflexivity;
  tidy.

Ltac same_log :=
  unfold index_frame, index_scheduled;
  repeat (rewrite <- app_assoc; cbn [app]);
  reflexivity.

Lemma Index_redraw_normal (p : Page E) e' stats w g s :
  step (simulation p) = Normal e' ->
  prev_generation_statistics e' = Normal stats ->
  world e' = Normal w ->
  generation e' = Normal g ->
  generation_steps e' = Normal s ->
  Index.redraw Number_toString p =
  (mkPage (window p) (reset_canvas (window p) (canvas p))
     (index_text Number_toString g s stats) e' (S (frameRequests p))
     (calls p ++ index_frame (reset_canvas (window p) (canvas p)) w
                   (index_text Number_toString g s stats)), Normal tt).
Proof.
  intros Hs Hst Hw Hg Hgs; index_start Hs.
  ask Hst.
  destruct stats as [st|]; cbv beta iota zeta.
  all: index_draw Hw; ask Hg; ask Hgs.
  all: rewrite setControllerText_run, code_text; tidy.
  all: unfold index_text, stats_lines, fitness; same_log.
Qed.

Lemma Index_redraw_step_thrown (p : Page E) :
  step (simulation p) = Thrown ->
  Index.redraw Number_toString p =
  (mkPage (window p) (reset_canvas (window p) (canvas p)) (controllerText p)
     (simulation p) (frameRequests p)
     (calls p ++ [ClearRect 0 0 (width (reset_canvas (window p) (canvas p)))
                    (width (reset_canvas (window p) (canvas p)));
                  EngineStep]), Thrown).
Proof.
  intros Hs; unfold Index.redraw.
  erewrite bind_normal by apply SimulationView_reset_run.
  tidy.
  erewrite bind_thrown.
  2:{ unfold for_lt; simpl for_from.
      erewrite bind_thrown by (apply simulation_step_thrown; exact Hs).
      reflexivity. }
  tidy; same_log.
Qed.

Lemma Index_redraw_statistics_thrown (p : Page E) e' :
  step (simulation p) = Normal e' ->
  prev_generation_statistics e' = Thrown ->
  Index.redraw Number_toString p =
  (mkPage (window p) (reset_canvas (window p) (canvas p)) (controllerText p)
     e' (frameRequests p)
     (calls p ++ [ClearRect 0 0 (width (reset_canvas (window p) (canvas p)))
                    (width (reset_canvas (window p) (canvas p)));
                  EngineStep; EnginePrevGenerationStatistics]), Thrown).
Proof.
  intros Hs Hst; index_start Hs.
  ask_thrown Hst.
  same_log.
Qed.

Lemma Index_redraw_world_thrown (p : Page E) e' stats :
  step (simulation p) = Normal e' ->
  prev_generation_statistics e' = Normal stats ->
  world e' = Thrown ->
  Index.redraw Number_toString p =
  (mkPage (window p) (reset_canvas (window p) (canvas p)) (controllerText p)
     e' (frameRequests p)
     (calls p ++ [ClearRect 0 0 (width (reset_canvas (window p) (canvas p)))
                    (width (reset_canvas (window p) (canvas p)));
                  EngineStep; EnginePrevGenerationStatistics; EngineWorld]),
   Thrown).
Proof.
  intros Hs Hst Hw; index_start Hs.
  ask Hst.
  destruct stats as [st|]; cbv beta iota zeta.
  all: ask_thrown Hw.
  all: same_log.
Qed.

Lemma Index_redraw_generation_thrown (p : Page E) e' stats w :
  step (simulation p) = Normal e' ->
  prev_generation_statistics e' = Normal stats ->
  world e' = Normal w ->
  generation e' = Thrown ->
  Index.redraw Number_toString p =
  (mkPage (window p) (reset_canvas (window p) (canvas p)) (controllerText p)
     e' (S (frameRequests p))
     (calls p ++ index_scheduled (reset_canvas (window p) (canvas p)) w
             ++ [EngineGeneration]), Thrown).
Proof.
  intros Hs Hst Hw Hg; index_start Hs.
  ask Hst.
  destruct stats as [st|]; cbv beta iota zeta.
  all: index_draw Hw; ask_thrown Hg.
  all: same_log.
Qed.

Lemma Index_redraw_generation_steps_thrown (p : Page E) e' stats w g :
  step (simulation p) = Normal e' ->
  prev_generation_statistics e' = Normal stats ->
  world e' = Normal w ->
  generation e' = Normal g ->
  generation_steps e' = Thrown ->
  Index.redraw Number_toString p =
  (mkPage (window p) (reset_canvas (window p) (canvas p)) (controllerText p)
     e' (S (frameRequests p))
     (calls p ++ index_scheduled (reset_canvas (window p) (canvas p)) w
             ++ [EngineGeneration; EngineGenerationSteps]), Thrown).
Proof.
  intros Hs Hst Hw Hg Hgs; index_start Hs.
  ask Hst.
  destruct stats as [st|]; cbv beta iota zeta.
  all: index_draw Hw; ask Hg; ask_thrown Hgs.
  all: same_log.
Qed.
End IndexLemmas.

(** ** Counting calls *)

Lemma count_app (f : call -> bool) (l1 l2 : list call) :
  count f (l1 ++ l2) = (count f l1 + count f l2)%nat.
Proof. unfold count; now rewrite filter_app, length_app. Qed.

Lemma count_flat_map {A} (f : call -> bool) (g : A -> list call) (k : nat)
  (l : list A) :
  (forall a, count f (g a) = k) ->
  count f (flat_map g l) = (k * length l)%nat.
Proof.
  intros Hg; induction l as [|a l IH]; simpl.
  - now rewrite Nat.mul_0_r.
  - rewrite count_app, Hg, IH; lia.
Qed.

Lemma filter_draw_animals size color c (l : list Animal.t) :
  filter is_draw (flat_map (animal_on size color c) l) =
  map (fun a => CallFillAnimal (Animal.x a * width c) (Animal.y a * height c)
                  (Animal.rotation a)) l.
Proof.
  induction l as [|a l IH]; simpl; [reflexivity | now rewrite IH].
Qed.

Lemma filter_draw_food size color c (l : list Food.t) :
  filter is_draw (flat_map (food_on size color c) l) =
  map (fun f => CallFillFood (Food.x f * width c) (Food.y f * height c)) l.
Proof.
  induction l as [|a l IH]; simpl; [reflexivity | now rewrite IH].
Qed.

(** ** Properties of the two scripts *)

(** C1.  The coordinate mapping: every agent and every food item is drawn at
    [(x * w, y * h)], where [w] and [h] are the width and the height of the
    canvas in device pixels; this holds for every [x] and [y], inside
    [[0,1]] or not, so nothing is clamped, rounded or adjusted.  It holds in
    both scripts: [draw_animals] and [draw_food] of wasm_app, and
    [drawAnimals] and [drawFood] of [SimulationView]. *)
Theorem draw_calls_at_scaled_coordinates {E} {engine : Simulation E}
  (p : Page E) (w : World) (la : list Animal.t) (lf : list Food.t) :
  world (simulation p) = Normal w ->
  filter is_draw (issued WasmApp.draw_animals p) =
    map (fun a => CallFillAnimal (Animal.x a * width (canvas p))
                    (Animal.y a * height (canvas p)) (Animal.rotation a))
        (animals w)
  /\ filter is_draw (issued WasmApp.draw_food p) =
    map (fun f => CallFillFood (Food.x f * width (canvas p))
                    (Food.y f * height (canvas p)))
        (food w)
  /\ filter is_draw (issued (SimulationView.drawAnimals la) p) =
    map (fun a => CallFillAnimal (Animal.x a * width (canvas p))
                    (Animal.y a * height (canvas p)) (Animal.rotation a))
        la
  /\ filter is_draw (issued (SimulationView.drawFood lf) p) =
    map (fun f => CallFillFood (Food.x f * width (canvas p))
                    (Food.y f * height (canvas p)))
        lf.
Proof.
  intros Hw; repeat split.
  - rewrite (issued_log _ _ _ _ (WasmApp_draw_animals_normal p w Hw)).
    simpl; apply filter_draw_animals.
  - rewrite (issued_log _ _ _ _ (WasmApp_draw_food_normal p w Hw)).
    simpl; apply filter_draw_food.
  - rewrite (issued_log _ _ _ _ (SimulationView_drawAnimals_run la p)).
    apply filter_draw_animals.
  - rewrite (issued_log _ _ _ _ (SimulationView_drawFood_run lf p)).
    apply filter_draw_food.
Qed.

Lemma draw_calls_at_scaled_coordinates_witness :
  world (simulation (stub_page (stub NoFault))) = Normal two_animals_one_food
  /\ filter is_draw (issued WasmApp.draw_animals (stub_page (stub NoFault))) =
     [CallFillAnimal (0.5 * 300) (0.25 * 150) 0;
      CallFillAnimal (1.5 * 300) ((-0.25) * 150) PI]
  /\ filter is_draw (issued WasmApp.draw_food (stub_page (stub NoFault))) =
     [CallFillFood (0.75 * 300) (0.5 * 150)]
  /\ filter is_draw
       (issued (SimulationView.drawAnimals [Animal.mk 2 (-1) 0])
          (stub_page (stub NoFault))) =
     [CallFillAnimal (2 * 300) ((-1) * 150) 0]
  /\ filter is_draw
       (issued (SimulationView.drawFood [Food.mk (-0.5) 3])
          (stub_page (stub NoFault))) =
     [CallFillFood ((-0.5) * 300) (3 * 150)].
Proof.
  assert (Hw : world (simulation (stub_page (stub NoFault))) =
               Normal two_animals_one_food) by reflexivity.
  split; [exact Hw|].
  exact (draw_calls_at_scaled_coordinates (stub_page (stub NoFault))
           two_animals_one_food [Animal.mk 2 (-1) 0] [Food.mk (-0.5) 3] Hw).
Defined.

(** ** The 2D context after a drawing method *)

Lemma render_app (l1 l2 : list call) :
  render (l1 ++ l2) = render_from (render l1) l2.
Proof. unfold render, render_from; apply fold_left_app. Qed.

Lemma render_agent (c : Context2D) size color cx cy rotation :
  render_from c
    (CallFillAnimal cx cy rotation :: agent_calls size color cx cy rotation) =
  mkContext2D
    [[point (vertex cx cy size rotation);
      point (vertex cx cy size (rotation + 7 * PI / 9));
      point (vertex cx cy size (rotation - 7 * PI / 9))];
     [point (vertex cx cy size rotation)]]
    color
    (painted c ++ [agent_shape size color cx cy rotation]).
Proof. reflexivity. Qed.

Lemma render_food (c : Context2D) size color cx cy :
  render_from c (CallFillFood cx cy :: food_calls size color cx cy) =
  mkContext2D [[ArcOf cx cy size 0 (2 * PI)]] color
    (painted c ++ [food_shape size color cx cy]).
Proof. reflexivity. Qed.

Lemma distance_vertex cx cy size angle :
  0 <= size -> distance (cx, cy) (vertex cx cy size angle) = size.
Proof.
  intros Hsize; unfold distance, vertex; simpl.
  replace ((cx + cos angle * size - cx) * (cx + cos angle * size - cx) +
           (cy + sin angle * size - cy) * (cy + sin angle * size - cy))
    with (size * size * ((sin angle)² + (cos angle)²))
    by (unfold Rsqr; ring).
  rewrite sin2_cos2, Rmult_1_r; now apply sqrt_square.
Qed.

Lemma vertex_0 cx cy size : vertex cx cy size 0 = (cx + size, cy).
Proof. unfold vertex; rewrite cos_0, sin_0; f_equal; ring. Qed.

Lemma pixels_twice covers (ps : list painting) (s : painting) pt :
  pixels covers ((ps ++ [s]) ++ [s]) pt = pixels covers (ps ++ [s]) pt.
Proof.
  unfold pixels; rewrite (fold_left_app _ (ps ++ [s])); simpl.
  rewrite fold_left_app; simpl.
  destruct s as [region style | x y w h]; simpl.
  - destruct (covers region pt); reflexivity.
  - destruct (in_rect x y w h pt); reflexivity.
Qed.

(** Any method that appends the calls of an agent draws the agent. *)
Lemma agent_at_intro {E} (fillAnimal : R -> R -> R -> JS E unit) ratio color :
  (forall p x y rotation,
     fillAnimal x y rotation p =
     (log p (CallFillAnimal x y rotation ::
             agent_calls (ratio * width (canvas p)) color x y rotation),
      Normal tt)) ->
  0 <= ratio ->
  forall (p : Page E) cx cy rotation,
    0 <= width (canvas p) -> agent_at fillAnimal ratio color p cx cy rotation.
Proof.
  intros Hrun Hratio p cx cy rotation Hwidth.
  assert (Hsize : 0 <= ratio * width (canvas p))
    by now apply Rmult_le_pos.
  unfold agent_at; cbv zeta.
  rewrite !Hrun; simpl fst; simpl canvas.
  repeat split.
  - rewrite (issued_log _ _ _ _ (Hrun p cx cy rotation)); reflexivity.
  - rewrite (issued_log _ _ _ _ (Hrun p cx cy 0)); simpl.
    unfold moveTo; rewrite vertex_0; reflexivity.
  - now apply distance_vertex.
  - now apply distance_vertex.
  - now apply distance_vertex.
  - rewrite (issued_log _ _ _ _ (Hrun _ cx cy rotation)).
    rewrite (issued_log _ _ _ _ (Hrun p cx cy rotation)); reflexivity.
  - simpl calls; rewrite render_app, render_agent; reflexivity.
  - simpl calls; rewrite (render_app (_ ++ _)), render_agent; reflexivity.
  - intros covers pt; simpl calls.
    rewrite (render_app (_ ++ _)), render_agent; simpl painted.
    rewrite render_app, render_agent; simpl painted.
    apply pixels_twice.
Qed.

(** C2.  The vertices of an agent.  Drawing an agent at the centre
    [(cx, cy)] with rotation [r] on a canvas of width [w] puts the head at
    [(cx + cos r * size, cy + sin r * size)], which is [(cx + size, cy)] when
    [r = 0], and the two legs at the angles [r + 7π/9] and [r - 7π/9]; the
    three vertices are at the distance [size = AGENT_SIZE_RATIO * w] from the
    centre (0.015 in wasm_app, 0.01 in [SimulationView]).  A second call with
    the same inputs issues the same calls, paints the same region and leaves
    every pixel as the first call left it. *)
Theorem agent_vertices {E} (p : Page E) (cx cy r : R) :
  0 <= width (canvas p) ->
  agent_at WasmApp.fillAnimal 0.015 "gray" p cx cy r
  /\ agent_at SimulationView.fillAnimal 0.01 "#758b9e" p cx cy r.
Proof.
  intros Hwidth; split.
  - apply agent_at_intro; [apply WasmApp_fillAnimal_run | lra | exact Hwidth].
  - apply agent_at_intro;
      [apply SimulationView_fillAnimal_run | lra | exact Hwidth].
Qed.

Lemma agent_vertices_witness :
  0 <= width (canvas (stub_page (stub NoFault)))
  /\ agent_at WasmApp.fillAnimal 0.015 "gray" (stub_page (stub NoFault))
       150 75 0
  /\ agent_at SimulationView.fillAnimal 0.01 "#758b9e"
       (stub_page (stub NoFault)) 150 75 0.
Proof.
  assert (Hwidth : 0 <= width (canvas (stub_page (stub NoFault))))
    by (simpl; lra).
  split; [exact Hwidth|].
  exact (agent_vertices (stub_page (stub NoFault)) 150 75 0 Hwidth).
Defined.

Lemma agent_path_at_intro {E} (fillAnimal : R -> R -> R -> JS E unit)
  ratio color :
  (forall p x y rotation,
     fillAnimal x y rotation p =
     (log p (CallFillAnimal x y rotation ::
             agent_calls (ratio * width (canvas p)) color x y rotation),
      Normal tt)) ->
  forall (p : Page E) cx cy rotation,
    agent_path_at fillAnimal ratio color p cx cy rotation.
Proof.
  intros Hrun p cx cy rotation; unfold agent_path_at; cbv zeta.
  rewrite (issued_log _ _ _ _ (Hrun p cx cy rotation)).
  rewrite Hrun; simpl fst; simpl calls.
  rewrite render_app, render_agent.
  repeat split.
Qed.

(** C3.  The path of an agent.  Every call of [fillAnimal], in both scripts,
    begins a path, moves to the head, draws a line to the first leg and a line
    to the second leg, and moves back to the head; the path is then filled,
    and [fill] is the only painting call (nothing is stroked).  What is
    painted is the triangle head, leg1, leg2 with its closed outline
    head-leg1, leg1-leg2, leg2-head, in the colour of the script (gray in
    wasm_app, #758b9e in [SimulationView]) whatever the agent and the page. *)
Theorem agent_path_filled {E} (p : Page E) (cx cy r : R) :
  agent_path_at WasmApp.fillAnimal 0.015 "gray" p cx cy r
  /\ agent_path_at SimulationView.fillAnimal 0.01 "#758b9e" p cx cy r.
Proof.
  split; apply agent_path_at_intro.
  - apply WasmApp_fillAnimal_run.
  - apply SimulationView_fillAnimal_run.
Qed.

Lemma food_at_intro {E} (fillFood : R -> R -> JS E unit) ratio color :
  (forall p x y,
     fillFood x y p =
     (log p (CallFillFood x y ::
             food_calls (ratio * width (canvas p)) color x y), Normal tt)) ->
  forall (p : Page E) cx cy, food_at fillFood ratio color p cx cy.
Proof.
  intros Hrun p cx cy; unfold food_at; cbv zeta.
  rewrite (issued_log _ _ _ _ (Hrun p cx cy)).
  rewrite Hrun; simpl fst; simpl calls.
  rewrite render_app, render_food.
  repeat split.
Qed.

(** C9.  The circle of a food item.  Every call of [fillFood], in both
    scripts, begins a path, adds the arc of centre [(x, y)], radius
    [FOOD_SIZE_RATIO * w] ([w] the width of the canvas; the ratio is 0.005 in
    wasm_app and 0.003 in [SimulationView]) from the angle 0 to the angle 2π,
    and fills it with the food colour of the script. *)
Theorem food_circle {E} (p : Page E) (x y : R) :
  food_at WasmApp.fillFood 0.005 "green" p x y
  /\ food_at SimulationView.fillFood 0.003 "#b4a794" p x y.
Proof.
  split; apply food_at_intro.
  - apply WasmApp_fillFood_run.
  - apply SimulationView_fillFood_run.
Qed.

(** ** The viewport *)







Lemma canvas_dimension_height_width (v : R) :
  (canvas_dimension 150 v <= canvas_dimension 300 v)%Z.
Proof.
  unfold canvas_dimension.
  destruct (Z.leb_spec (truncate v mod 4294967296) 2147483647); lia.
Qed.


Section Viewport.
Context {E : Type} `{Simulation E}.

Lemma WasmApp_redraw_clears (p : Page E) :
  nth_error (issued WasmApp.redraw p) 0 =
  Some (ClearRect 0 0 (width (canvas p)) (height (canvas p))).
Proof.
  destruct (step (simulation p)) as [e'|] eqn:Hs.
  - destruct (world e') as [w|] eqn:Hw.
    + erewrite issued_calls
        by (rewrite (WasmApp_redraw_normal p e' w Hs Hw); reflexivity).
      reflexivity.
    + erewrite issued_calls
        by (rewrite (WasmApp_redraw_world_thrown p e' Hs Hw); reflexivity).
      reflexivity.
  - rewrite (issued_log _ _ _ _ (WasmApp_redraw_step_thrown p Hs)).
    reflexivity.
Qed.

End Viewport.






(** ** The statistics panel *)

Lemma no_newline_app (a b : string) :
  no_newline (a ++ b) = no_newline a && no_newline b.
Proof.
  induction a as [|ch a IH]; simpl; [reflexivity|].
  now rewrite IH, andb_assoc.
Qed.

Lemma no_newline_replace (a : string) : no_newline (replace_newlines a) = true.
Proof.
  induction a as [|ch a IH]; simpl; [reflexivity|].
  destruct (Ascii.eqb ch newline) eqn:Hch; simpl; [exact IH|].
  now rewrite Hch, IH.
Qed.

Lemma replace_newlines_id (a : string) :
  no_newline a = true -> replace_newlines a = a.
Proof.
  induction a as [|ch a IH]; simpl; [reflexivity|].
  destruct (Ascii.eqb ch newline); simpl; [discriminate|].
  intros Ha; now rewrite IH.
Qed.

Lemma no_newline_uint (d : Decimal.uint) :
  no_newline (NilEmpty.string_of_uint d) = true.
Proof. induction d; simpl; auto. Qed.

Lemma no_newline_Z_toString (n : Z) : no_newline (Z_toString n) = true.
Proof.
  unfold Z_toString, NilZero.string_of_int, NilZero.string_of_uint.
  destruct (Z.to_int n) as [d|d]; destruct d; simpl;
    auto using no_newline_uint.
Qed.

Lemma replace_newlines_join (lines : list string) :
  replace_newlines (join nl lines) = join "<br>" (map replace_newlines lines).
Proof.
  induction lines as [|l lines IH]; simpl; [reflexivity|].
  rewrite replace_newlines_app; simpl; rewrite IH; reflexivity.
Qed.

Lemma index_text_lines (Number_toString : R -> string) g s stats :
  index_text Number_toString g s stats =
  join "<br>"
    (stats_lines
       (fun v => replace_newlines (Index.toString Number_toString v))
       g s stats).
Proof.
  unfold index_text; rewrite replace_newlines_join.
  unfold stats_lines; cbn [map].
  rewrite !replace_newlines_app.
  rewrite !(replace_newlines_id (Z_toString _))
    by apply no_newline_Z_toString.
  reflexivity.
Qed.

Lemma filter_present_animals size color c (l : list Animal.t) :
  filter is_present (flat_map (animal_on size color c) l) = [].
Proof. induction l as [|a l IH]; simpl; [reflexivity | exact IH]. Qed.

Lemma filter_present_food size color c (l : list Food.t) :
  filter is_present (flat_map (food_on size color c) l) = [].
Proof. induction l as [|a l IH]; simpl; [reflexivity | exact IH]. Qed.

Lemma four_numbers_1 : four_numbers 1 = "1"%string.
Proof. unfold four_numbers; destruct (Req_dec_T 1 1); [reflexivity | lra]. Qed.

Lemma four_numbers_02 : four_numbers 0.2 = "0.2"%string.
Proof.
  unfold four_numbers.
  destruct (Req_dec_T 0.2 1); [lra|].
  destruct (Req_dec_T 0.2 0.2); [reflexivity | lra].
Qed.

Lemma four_numbers_05 : four_numbers 0.5 = "0.5"%string.
Proof.
  unfold four_numbers.
  destruct (Req_dec_T 0.5 1); [lra|].
  destruct (Req_dec_T 0.5 0.2); [lra|].
  destruct (Req_dec_T 0.5 0.5); [reflexivity | lra].
Qed.

Lemma four_numbers_01 : four_numbers 0.1 = "0.1"%string.
Proof.
  unfold four_numbers.
  destruct (Req_dec_T 0.1 1); [lra|].
  destruct (Req_dec_T 0.1 0.2); [lra|].
  destruct (Req_dec_T 0.1 0.5); [lra|].
  destruct (Req_dec_T 0.1 0.1); [reflexivity | lra].
Qed.

(** C7.  The statistics text.  After a frame of [index.js] in which no call
    throws, the element [controllerText] holds, whatever it held before, the
    lines Generation, Generation steps, an empty line, the heading Prev
    generation stats, Max fitness, Min fitness, Mean fitness and Std fitness,
    in this order, each followed by [<br>] in place of the line break; the
    two counters are the integers the engine returned, and each fitness line
    carries the text of its value, which is the word null on all four lines
    when the engine has no statistics. *)
Theorem stats_text {E} {engine : Simulation E} (Number_toString : R -> string)
  (p : Page E) (e' : E) (stats : option Statistics.t) (w : World) (g s : Z) :
  step (simulation p) = Normal e' ->
  prev_generation_statistics e' = Normal stats ->
  world e' = Normal w ->
  generation e' = Normal g ->
  generation_steps e' = Normal s ->
  let p' := fst (Index.redraw Number_toString p) in
  controllerText p' =
    join "<br>"
      (stats_lines
         (fun v => replace_newlines (Index.toString Number_toString v))
         g s stats)
  /\ no_newline (controllerText p') = true
  /\ filter is_present (issued (Index.redraw Number_toString) p) =
       [SetInnerHTML (controllerText p')]
  /\ (stats = None ->
      controllerText p' =
        ("Generation: " ++ Z_toString g ++ "<br>" ++
         "Generation steps: " ++ Z_toString s ++ "<br>" ++
         "<br>" ++
         "Prev generation stats:<br>" ++
         "Max fitness: null<br>" ++
         "Min fitness: null<br>" ++
         "Mean fitness: null<br>" ++
         "Std fitness: null<br>")%string).

Proof.
  intros Hs Hst Hw Hg Hgs; cbv zeta.
  pose proof (Index_redraw_normal Number_toString p e' stats w g s
                Hs Hst Hw Hg Hgs) as Hrun.
  assert (Hissued :
    issued (Index.redraw Number_toString) p =
    index_frame (reset_canvas (window p) (canvas p)) w
      (index_text Number_toString g s stats))
    by (apply issued_calls; rewrite Hrun; reflexivity).
  rewrite Hissued, Hrun; cbn [fst controllerText].
  repeat match goal with |- _ /\ _ => split end.
  - apply index_text_lines.
  - apply no_newline_replace.
  - unfold index_frame, index_scheduled.
    rewrite !filter_app, !filter_present_animals, !filter_present_food.
    reflexivity.
  - intros ->; rewrite index_text_lines; reflexivity.
Qed.

Lemma stats_text_witness :
  controllerText
    (fst (Index.redraw four_numbers
            (stub_page (mkStub two_animals_one_food 3 39
                          (Some (Statistics.mk 1 0.2 0.5 0.1)) NoFault)))) =
    ("Generation: 3<br>Generation steps: 40<br><br>" ++
     "Prev generation stats:<br>" ++
     "Max fitness: 1<br>Min fitness: 0.2<br>" ++
     "Mean fitness: 0.5<br>Std fitness: 0.1<br>")%string
  /\ controllerText (fst (Index.redraw four_numbers (stub_page (stub NoFault))))
     = ("Generation: 3<br>Generation steps: 41<br><br>" ++
        "Prev generation stats:<br>" ++
        "Max fitness: null<br>Min fitness: null<br>" ++
        "Mean fitness: null<br>Std fitness: null<br>")%string.
Proof.
  split.
  - destruct (stats_text (engine := Stub_Simulation) four_numbers
                (stub_page (mkStub two_animals_one_food 3 39
                              (Some (Statistics.mk 1 0.2 0.5 0.1)) NoFault))
                (mkStub two_animals_one_food 3 40
                   (Some (Statistics.mk 1 0.2 0.5 0.1)) NoFault)
                (Some (Statistics.mk 1 0.2 0.5 0.1)) two_animals_one_food
                3%Z 40%Z eq_refl eq_refl eq_refl eq_refl eq_refl)
      as (Htext & _).
    rewrite Htext; unfold stats_lines, fitness, Index.toString; cbn [join].
    cbn [Statistics.max_fitness Statistics.min_fitness
         Statistics.mean_fitness Statistics.std_fitness].
    rewrite four_numbers_1, four_numbers_02, four_numbers_05, four_numbers_01.
    reflexivity.
  - destruct (stats_text (engine := Stub_Simulation) four_numbers
                (stub_page (stub NoFault))
                (mkStub two_animals_one_food 3 41 None NoFault)
                None two_animals_one_food
                3%Z 41%Z eq_refl eq_refl eq_refl eq_refl eq_refl)
      as (_ & _ & _ & Hnull).
    rewrite (Hnull eq_refl); reflexivity.
Defined.

(** ** Order and number of the calls of a frame *)

Lemma existsb_flat_map {A} (f : call -> bool) (g : A -> list call)
  (l : list A) :
  (forall a, existsb f (g a) = false) -> existsb f (flat_map g l) = false.
Proof.
  intros Hg; induction l as [|a l IH]; simpl; [reflexivity|].
  now rewrite existsb_app, Hg, IH.
Qed.

Lemma beforeb_none (f g : call -> bool) (l : list call) :
  existsb f l = false -> beforeb f g l = false.
Proof.
  induction l as [|a l IH]; simpl; [reflexivity|].
  intros Hf; apply orb_false_iff in Hf as [Ha Hl].
  now rewrite Ha, IH.
Qed.

Lemma beforeb_app (f g : call -> bool) (l1 l2 : list call) :
  beforeb f g (l1 ++ l2) =
  beforeb f g l1 || (existsb f l1 && existsb g l2) || beforeb f g l2.
Proof.
  induction l1 as [|a l1 IH]; simpl; [reflexivity|].
  rewrite IH, existsb_app.
  destruct (f a), (existsb g l1), (existsb g l2), (beforeb f g l1),
    (existsb f l1), (beforeb f g l2); reflexivity.
Qed.

Lemma before_beforeb (f g : call -> bool) (l : list call) :
  before f g l -> beforeb f g l = true.
Proof.
  intros (l1 & a & l2 & b & l3 & -> & Ha & Hb).
  induction l1 as [|c l1 IH]; simpl.
  - rewrite Ha, existsb_app; simpl; rewrite Hb.
    now rewrite orb_true_r.
  - rewrite IH; apply orb_true_r.
Qed.

Lemma existsb_animals f size color c (l : list Animal.t) :
  f BeginPath = false -> f Fill = false ->
  (forall x y, f (MoveTo x y) = false) ->
  (forall x y, f (LineTo x y) = false) ->
  (forall style, f (SetFillStyle style) = false) ->
  (forall x y r, f (CallFillAnimal x y r) = false) ->
  existsb f (flat_map (animal_on size color c) l) = false.
Proof.
  intros H1 H2 H3 H4 H5 H6; apply existsb_flat_map; intros a.
  unfold animal_on, agent_calls, moveTo, lineTo; simpl.
  now rewrite H1, H2, !H3, !H4, H5, H6.
Qed.

Lemma existsb_food f size color c (l : list Food.t) :
  f BeginPath = false -> f Fill = false ->
  (forall x y r a0 a1, f (Arc x y r a0 a1) = false) ->
  (forall style, f (SetFillStyle style) = false) ->
  (forall x y, f (CallFillFood x y) = false) ->
  existsb f (flat_map (food_on size color c) l) = false.
Proof.
  intros H1 H2 H3 H4 H5; apply existsb_flat_map; intros a.
  unfold food_on, food_calls; simpl.
  now rewrite H1, H2, H3, H4, H5.
Qed.

Lemma count_animals f k size color c (l : list Animal.t) :
  (forall a, count f (animal_on size color c a) = k) ->
  count f (flat_map (animal_on size color c) l) = (k * length l)%nat.
Proof. apply count_flat_map. Qed.

Lemma count_food f k size color c (l : list Food.t) :
  (forall a, count f (food_on size color c a) = k) ->
  count f (flat_map (food_on size color c) l) = (k * length l)%nat.
Proof. apply count_flat_map. Qed.

(** Counting in the log of a frame: the counts of the two loops are
    multiples of the number of items, the rest is computed. *)
Ltac count_frame :=
  unfold wasm_frame, index_frame, index_scheduled;
  repeat rewrite count_app;
  repeat match goal with
    | |- context [count ?f (flat_map (animal_on ?s ?c ?cv) ?l)] =>
        first [ rewrite (count_animals f 0 s c cv l) by (intros; reflexivity)
              | rewrite (count_animals f 1 s c cv l) by (intros; reflexivity) ]
    | |- context [count ?f (flat_map (food_on ?s ?c ?cv) ?l)] =>
        first [ rewrite (count_food f 0 s c cv l) by (intros; reflexivity)
              | rewrite (count_food f 1 s c cv l) by (intros; reflexivity) ]
    end;
  cbn [count filter length is_step is_fillAnimal is_fillFood is_schedule
       is_present is_clear];
  lia.

Lemma index_presents_after_scheduling (c : Canvas) (w : World) (html : string) :
  before is_schedule is_present (index_frame c w html)
  /\ ~ before is_present is_schedule (index_frame c w html).
Proof.
  split.
  - unfold before, index_frame, index_scheduled.
    exists ([ClearRect 0 0 (width c) (width c); EngineStep;
             EnginePrevGenerationStatistics; EngineWorld]
            ++ flat_map (animal_on 0.01 "#758b9e" c) (animals w)
            ++ [EngineWorld]
            ++ flat_map (food_on 0.003 "#b4a794" c) (food w)),
      RequestAnimationFrame, [EngineGeneration; EngineGenerationSteps],
      (SetInnerHTML html), [].
    repeat split.
    repeat (rewrite <- app_assoc; cbn [app]); reflexivity.
  - intros Hb; apply before_beforeb in Hb.
    unfold index_frame, index_scheduled in Hb.
    rewrite !beforeb_app, !existsb_app in Hb.
    rewrite !(beforeb_none is_present is_schedule (flat_map _ _)) in Hb
      by (first [apply existsb_animals | apply existsb_food]; reflexivity).
    rewrite !(existsb_animals is_present), !(existsb_food is_present) in Hb
      by reflexivity.
    simpl in Hb; discriminate.
Qed.

Section Frames.
Context {E : Type} {engine : Simulation E}.
Variable Number_toString : R -> string.

(** The calls of a frame of wasm_app, whatever the engine does. *)
Lemma WasmApp_redraw_issued (p : Page E) :
  issued WasmApp.redraw p =
  match step (simulation p) with
  | Thrown =>
      [ClearRect 0 0 (width (canvas p)) (height (canvas p)); EngineStep]
  | Normal e' =>
      match world e' with
      | Thrown =>
          [ClearRect 0 0 (width (canvas p)) (height (canvas p)); EngineStep;
           EngineWorld]
      | Normal w => wasm_frame (canvas p) w
      end
  end.
Proof.
  destruct (step (simulation p)) as [e'|] eqn:Hs.
  - destruct (world e') as [w|] eqn:Hw; apply issued_calls.
    + rewrite (WasmApp_redraw_normal p e' w Hs Hw); reflexivity.
    + rewrite (WasmApp_redraw_world_thrown p e' Hs Hw); reflexivity.
  - apply issued_calls; rewrite (WasmApp_redraw_step_thrown p Hs).
    reflexivity.
Qed.

(** The calls of a frame of [index.js], whatever the engine does. *)
Lemma Index_redraw_issued (p : Page E) :
  let c := reset_canvas (window p) (canvas p) in
  issued (Index.redraw Number_toString) p =
  match step (simulation p) with
  | Thrown => [ClearRect 0 0 (width c) (width c); EngineStep]
  | Normal e' =>
      match prev_generation_statistics e' with
      | Thrown =>
          [ClearRect 0 0 (width c) (width c); EngineStep;
           EnginePrevGenerationStatistics]
      | Normal stats =>
          match world e' with
          | Thrown =>
              [ClearRect 0 0 (width c) (width c); EngineStep;
               EnginePrevGenerationStatistics; EngineWorld]
          | Normal w =>
              match generation e' with
              | Thrown => index_scheduled c w ++ [EngineGeneration]
              | Normal g =>
                  match generation_steps e' with
                  | Thrown =>
                      index_scheduled c w
                      ++ [EngineGeneration; EngineGenerationSteps]
                  | Normal s =>
                      index_frame c w (index_text Number_toString g s stats)
                  end
              end
          end
      end
  end.
Proof.
  cbv zeta.
  destruct (step (simulation p)) as [e'|] eqn:Hs.
  2:{ apply issued_calls.
      rewrite (Index_redraw_step_thrown Number_toString p Hs); reflexivity. }
  destruct (prev_generation_statistics e') as [stats|] eqn:Hst.
  2:{ apply issued_calls.
      rewrite (Index_redraw_statistics_thrown Number_toString p e' Hs Hst).
      reflexivity. }
  destruct (world e') as [w|] eqn:Hw.
  2:{ apply issued_calls.
      rewrite (Index_redraw_world_thrown Number_toString p e' stats Hs Hst Hw).
      reflexivity. }
  destruct (generation e') as [g|] eqn:Hg.
  2:{ apply issued_calls.
      rewrite (Index_redraw_generation_thrown Number_toString p e' stats w
                 Hs Hst Hw Hg).
      reflexivity. }
  destruct (generation_steps e') as [s|] eqn:Hgs; apply issued_calls.
  - rewrite (Index_redraw_normal Number_toString p e' stats w g s
               Hs Hst Hw Hg Hgs); reflexivity.
  - rewrite (Index_redraw_generation_steps_thrown Number_toString p e' stats
               w g Hs Hst Hw Hg Hgs); reflexivity.
Qed.

Lemma WasmApp_redraw_steps_once (p : Page E) :
  count is_step (issued WasmApp.redraw p) = 1%nat.
Proof.
  rewrite WasmApp_redraw_issued.
  destruct (step (simulation p)) as [e'|]; [|reflexivity].
  destruct (world e') as [w|]; [|reflexivity].
  count_frame.
Qed.

Lemma Index_redraw_steps_once (p : Page E) :
  count is_step (issued (Index.redraw Number_toString) p) = 1%nat.
Proof.
  rewrite Index_redraw_issued.
  destruct (step (simulation p)) as [e'|]; [|reflexivity].
  destruct (prev_generation_statistics e') as [stats|]; [|reflexivity].
  destruct (world e') as [w|]; [|reflexivity].
  destruct (generation e') as [g|]; [|count_frame].
  destruct (generation_steps e') as [s|]; count_frame.
Qed.
End Frames.

(** C5.  One step and one draw call per entity in every frame.  A frame of
    either script calls [step] exactly once, whatever the engine answers;
    and when the step and the queries of the frame succeed, the frame calls
    [fillAnimal] as many times as the world it was given has animals and
    [fillFood] as many times as it has food. *)
Theorem frame_counts {E} {engine : Simulation E}
  (Number_toString : R -> string) (p : Page E) :
  count is_step (issued WasmApp.redraw p) = 1%nat
  /\ count is_step (issued (Index.redraw Number_toString) p) = 1%nat
  /\ (forall e' w,
        step (simulation p) = Normal e' -> world e' = Normal w ->
        count is_fillAnimal (issued WasmApp.redraw p) = length (animals w)
        /\ count is_fillFood (issued WasmApp.redraw p) = length (food w))
  /\ (forall e' stats w,
        step (simulation p) = Normal e' ->
        prev_generation_statistics e' = Normal stats ->
        world e' = Normal w ->
        count is_fillAnimal (issued (Index.redraw Number_toString) p)
          = length (animals w)
        /\ count is_fillFood (issued (Index.redraw Number_toString) p)
          = length (food w)).
Proof.
  split; [apply WasmApp_redraw_steps_once|].
  split; [apply Index_redraw_steps_once|].
  split.
  - intros e' w Hs Hw; rewrite WasmApp_redraw_issued, Hs, Hw.
    split; count_frame.
  - intros e' stats w Hs Hst Hw.
    rewrite Index_redraw_issued; cbv zeta; rewrite Hs, Hst, Hw.
    destruct (generation e') as [g|]; [|split; count_frame].
    destruct (generation_steps e') as [s|]; split; count_frame.
Qed.

Lemma frame_counts_witness :
  count is_step (issued WasmApp.redraw (stub_page (stub NoFault))) = 1%nat
  /\ count is_fillAnimal (issued WasmApp.redraw (stub_page (stub NoFault)))
     = 2%nat
  /\ count is_fillFood (issued WasmApp.redraw (stub_page (stub NoFault)))
     = 1%nat
  /\ count is_fillAnimal
       (issued (Index.redraw four_numbers) (stub_page (stub NoFault))) = 2%nat
  /\ count is_fillFood
       (issued (Index.redraw four_numbers) (stub_page (stub NoFault))) = 1%nat.
Proof.
  destruct (frame_counts (engine := Stub_Simulation) four_numbers
              (stub_page (stub NoFault))) as (Hstep & _ & Hwasm & Hindex).
  split; [exact Hstep|].
  destruct (Hwasm (mkStub two_animals_one_food 3 41 None NoFault)
              two_animals_one_food eq_refl eq_refl) as (Ha & Hf).
  destruct (Hindex (mkStub two_animals_one_food 3 41 None NoFault) None
              two_animals_one_food eq_refl eq_refl eq_refl) as (Ha' & Hf').
  repeat split; assumption.
Defined.

(** C4, as the code has it.  A frame of [index.js] in which no call throws
    clears the viewport, steps the engine once, asks for the statistics of
    the previous generation, asks for the world and draws the animals, asks
    for the world and draws the food, schedules the next frame, and only then
    asks for the two counters and presents the statistics: the presentation
    comes after the scheduling call, never before it.  A frame of wasm_app
    clears the viewport, steps the engine, draws the animals and the food and
    schedules the next frame; it presents no statistics. *)
Theorem frame_order {E} {engine : Simulation E}
  (Number_toString : R -> string) (p : Page E) (e' : E)
  (stats : option Statistics.t) (w : World) (g s : Z) :
  step (simulation p) = Normal e' ->
  prev_generation_statistics e' = Normal stats ->
  world e' = Normal w ->
  generation e' = Normal g ->
  generation_steps e' = Normal s ->
  let c := reset_canvas (window p) (canvas p) in
  issued (Index.redraw Number_toString) p =
    [ClearRect 0 0 (width c) (width c); EngineStep;
     EnginePrevGenerationStatistics; EngineWorld]
    ++ flat_map (animal_on 0.01 "#758b9e" c) (animals w)
    ++ [EngineWorld]
    ++ flat_map (food_on 0.003 "#b4a794" c) (food w)
    ++ [RequestAnimationFrame; EngineGeneration; EngineGenerationSteps;
        SetInnerHTML (index_text Number_toString g s stats)]
  /\ before is_schedule is_present (issued (Index.redraw Number_toString) p)
  /\ ~ before is_present is_schedule (issued (Index.redraw Number_toString) p)
  /\ issued WasmApp.redraw p =
    [ClearRect 0 0 (width (canvas p)) (height (canvas p)); EngineStep;
     EngineWorld]
    ++ flat_map (animal_on 0.015 "gray" (canvas p)) (animals w)
    ++ [EngineWorld]
    ++ flat_map (food_on 0.005 "green" (canvas p)) (food w)
    ++ [RequestAnimationFrame]
  /\ count is_present (issued WasmApp.redraw p) = 0%nat.
Proof.
  intros Hs Hst Hw Hg Hgs; cbv zeta.
  rewrite WasmApp_redraw_issued, (Index_redraw_issued Number_toString).
  cbv zeta; rewrite Hs, Hst, Hw, Hg, Hgs.
  repeat match goal with |- _ /\ _ => split end.
  - unfold index_frame, index_scheduled.
    repeat (rewrite <- app_assoc; cbn [app]); reflexivity.
  - apply index_presents_after_scheduling.
  - apply index_presents_after_scheduling.
  - reflexivity.
  - count_frame.
Qed.

Lemma frame_order_witness :
  before is_schedule is_present
    (issued (Index.redraw four_numbers) (stub_page (stub NoFault)))
  /\ count is_present (issued WasmApp.redraw (stub_page (stub NoFault))) = 0%nat.
Proof.
  destruct (frame_order (engine := Stub_Simulation) four_numbers
              (stub_page (stub NoFault))
              (mkStub two_animals_one_food 3 41 None NoFault) None
              two_animals_one_food 3%Z 41%Z
              eq_refl eq_refl eq_refl eq_refl eq_refl)
    as (_ & Hafter & _ & _ & Hnone).
  split; [exact Hafter | exact Hnone].
Defined.

(** C4, as the specification has it, fails: in the frame of [index.js] on
    the stub engine the statistics are not presented before the next frame
    is scheduled. *)
Lemma frame_order_counterexample :
  ~ before is_present is_schedule
      (issued (Index.redraw four_numbers) (stub_page (stub NoFault))).
Proof.
  assert (Hissued :
    issued (Index.redraw four_numbers) (stub_page (stub NoFault)) =
    index_frame
      (reset_canvas (window (stub_page (stub NoFault)))
         (canvas (stub_page (stub NoFault))))
      two_animals_one_food (index_text four_numbers 3 41 None)).
  { apply issued_calls.
    rewrite (Index_redraw_normal (H := Stub_Simulation) four_numbers
               (stub_page (stub NoFault))
               (mkStub two_animals_one_food 3 41 None NoFault) None
               two_animals_one_food 3%Z 41%Z
               eq_refl eq_refl eq_refl eq_refl eq_refl).
    reflexivity. }
  rewrite Hissued; apply index_presents_after_scheduling.
Qed.

(** ** Failures of the engine *)

Lemma animate_idle {E} (redraw : JS E unit) (n : nat) (p : Page E) :
  frameRequests p = 0%nat -> animate redraw n p = p.
Proof. intros Hp; destruct n; simpl; [reflexivity | now rewrite Hp]. Qed.

Section Failing.
Context {E : Type} {engine : Simulation E}.
Variable Number_toString : R -> string.

Lemma WasmApp_redraw_fails (p : Page E) :
  wasm_fails (simulation p) ->
  snd (WasmApp.redraw p) = Thrown
  /\ frameRequests (fst (WasmApp.redraw p)) = frameRequests p
  /\ count is_schedule (issued WasmApp.redraw p) = 0%nat.
Proof.
  intros [Hs | (e' & Hs & Hw)].
  - rewrite WasmApp_redraw_issued, Hs.
    rewrite (WasmApp_redraw_step_thrown p Hs); repeat split.
  - rewrite WasmApp_redraw_issued, Hs, Hw.
    rewrite (WasmApp_redraw_world_thrown p e' Hs Hw); repeat split.
Qed.

Lemma Index_redraw_fails_before_scheduling (p : Page E) :
  index_fails_before_scheduling (simulation p) ->
  snd (Index.redraw Number_toString p) = Thrown
  /\ frameRequests (fst (Index.redraw Number_toString p)) = frameRequests p
  /\ controllerText (fst (Index.redraw Number_toString p)) = controllerText p
  /\ count is_schedule (issued (Index.redraw Number_toString) p) = 0%nat
  /\ count is_present (issued (Index.redraw Number_toString) p) = 0%nat.
Proof.
  intros [Hs | (e' & Hs & [Hst | (stats & Hst & Hw)])];
    rewrite (Index_redraw_issued Number_toString); cbv zeta.
  - rewrite Hs, (Index_redraw_step_thrown Number_toString p Hs).
    repeat split.
  - rewrite Hs, Hst.
    rewrite (Index_redraw_statistics_thrown Number_toString p e' Hs Hst).
    repeat split.
  - rewrite Hs, Hst, Hw.
    rewrite (Index_redraw_world_thrown Number_toString p e' stats Hs Hst Hw).
    repeat split.
Qed.

Lemma Index_redraw_fails_after_scheduling (p : Page E) :
  index_fails_after_scheduling (simulation p) ->
  snd (Index.redraw Number_toString p) = Thrown
  /\ frameRequests (fst (Index.redraw Number_toString p))
     = S (frameRequests p)
  /\ controllerText (fst (Index.redraw Number_toString p)) = controllerText p
  /\ count is_schedule (issued (Index.redraw Number_toString) p) = 1%nat
  /\ count is_present (issued (Index.redraw Number_toString) p) = 0%nat.
Proof.
  intros (e' & stats & w & Hs & Hst & Hw & [Hg | (g & Hg & Hgs)]);
    rewrite (Index_redraw_issued Number_toString); cbv zeta.
  - rewrite Hs, Hst, Hw, Hg.
    rewrite (Index_redraw_generation_thrown Number_toString p e' stats w
               Hs Hst Hw Hg).
    repeat match goal with |- _ /\ _ => split end;
      try reflexivity; count_frame.
  - rewrite Hs, Hst, Hw, Hg, Hgs.
    rewrite (Index_redraw_generation_steps_thrown Number_toString p e' stats
               w g Hs Hst Hw Hg Hgs).
    repeat match goal with |- _ /\ _ => split end;
      try reflexivity; count_frame.
Qed.
End Failing.

(** C6, as the code has it.  When [step] or [world] throws in a frame of
    wasm_app, or [step], [prev_generation_statistics] or [world] throws in a
    frame of [index.js], the exception leaves [redraw] uncaught, no call to
    requestAnimationFrame is made, the statistics text is left as it was,
    and with no frame pending the loop never runs again.  When
    [generation] or [generation_steps] throws in a frame of [index.js], the
    exception leaves [redraw] uncaught and the statistics text is left as it
    was, but the next frame has been scheduled already. *)
Theorem engine_failure {E} {engine : Simulation E}
  (Number_toString : R -> string) (p : Page E) :
  (wasm_fails (simulation p) ->
   let p' := fst (WasmApp.redraw p) in
   snd (WasmApp.redraw p) = Thrown
   /\ frameRequests p' = frameRequests p
   /\ count is_schedule (issued WasmApp.redraw p) = 0%nat
   /\ (frameRequests p = 0%nat ->
       forall n, animate WasmApp.redraw n p' = p'))
  /\ (index_fails_before_scheduling (simulation p) ->
      let p' := fst (Index.redraw Number_toString p) in
      snd (Index.redraw Number_toString p) = Thrown
      /\ frameRequests p' = frameRequests p
      /\ controllerText p' = controllerText p
      /\ count is_schedule (issued (Index.redraw Number_toString) p) = 0%nat
      /\ count is_present (issued (Index.redraw Number_toString) p) = 0%nat
      /\ (frameRequests p = 0%nat ->
          forall n, animate (Index.redraw Number_toString) n p' = p'))
  /\ (index_fails_after_scheduling (simulation p) ->
      let p' := fst (Index.redraw Number_toString p) in
      snd (Index.redraw Number_toString p) = Thrown
      /\ frameRequests p' = S (frameRequests p)
      /\ controllerText p' = controllerText p
      /\ count is_schedule (issued (Index.redraw Number_toString) p) = 1%nat
      /\ count is_present (issued (Index.redraw Number_toString) p) = 0%nat).
Proof.
  split; [|split].
  - intros Hf; cbv zeta.
    destruct (WasmApp_redraw_fails p Hf) as (Ht & Hr & Hc).
    repeat split; try assumption.
    intros Hp n; apply animate_idle; congruence.
  - intros Hf; cbv zeta.
    destruct (Index_redraw_fails_before_scheduling Number_toString p Hf)
      as (Ht & Hr & Htext & Hc & Hc').
    repeat split; try assumption.
    intros Hp n; apply animate_idle; congruence.
  - intros Hf; cbv zeta.
    apply (Index_redraw_fails_after_scheduling Number_toString p Hf).
Qed.

Lemma engine_failure_witness :
  wasm_fails (simulation (stub_page (stub StepThrows)))
  /\ snd (WasmApp.redraw (stub_page (stub StepThrows))) = Thrown
  /\ index_fails_before_scheduling (simulation (stub_page (stub WorldThrows)))
  /\ count is_schedule
       (issued (Index.redraw four_numbers) (stub_page (stub WorldThrows)))
     = 0%nat
  /\ index_fails_after_scheduling
       (simulation (stub_page (stub GenerationStepsThrows)))
  /\ count is_schedule
       (issued (Index.redraw four_numbers)
          (stub_page (stub GenerationStepsThrows)))
     = 1%nat.
Proof.
  assert (H1 : wasm_fails (simulation (stub_page (stub StepThrows))))
    by (left; reflexivity).
  assert (H2 : index_fails_before_scheduling
                 (simulation (stub_page (stub WorldThrows)))).
  { right; exists (mkStub two_animals_one_food 3 41 None WorldThrows).
    split; [reflexivity|]; right; exists None; split; reflexivity. }
  assert (H3 : index_fails_after_scheduling
                 (simulation (stub_page (stub GenerationStepsThrows)))).
  { exists (mkStub two_animals_one_food 3 41 None GenerationStepsThrows),
      None, two_animals_one_food.
    repeat (split; [reflexivity|]).
    right; exists 3%Z; split; reflexivity. }
  destruct (engine_failure (engine := Stub_Simulation) four_numbers
              (stub_page (stub StepThrows))) as (Hw & _ & _).
  destruct (engine_failure (engine := Stub_Simulation) four_numbers
              (stub_page (stub WorldThrows))) as (_ & Hb & _).
  destruct (engine_failure (engine := Stub_Simulation) four_numbers
              (stub_page (stub GenerationStepsThrows))) as (_ & _ & Ha).
  split; [exact H1|].
  split; [apply (Hw H1)|].
  split; [exact H2|].
  split; [apply (Hb H2)|].
  split; [exact H3|].
  apply (Ha H3).
Defined.

(** C6, as the specification has it, fails: on the stub engine whose
    [generation] throws, the frame of [index.js] ends with the exception,
    and the call to requestAnimationFrame has been made. *)
Lemma engine_failure_counterexample :
  generation (mkStub two_animals_one_food 3 41 None GenerationThrows) = Thrown
  /\ snd (Index.redraw four_numbers (stub_page (stub GenerationThrows)))
     = Thrown
  /\ count is_schedule
       (issued (Index.redraw four_numbers) (stub_page (stub GenerationThrows)))
     = 1%nat
  /\ frameRequests
       (fst (Index.redraw four_numbers (stub_page (stub GenerationThrows))))
     = 1%nat.
Proof.
  assert (Hf : index_fails_after_scheduling
                 (simulation (stub_page (stub GenerationThrows)))).
  { exists (mkStub two_animals_one_food 3 41 None GenerationThrows),
      None, two_animals_one_food.
    repeat (split; [reflexivity|]).
    left; reflexivity. }
  destruct (Index_redraw_fails_after_scheduling four_numbers _ Hf)
    as (Ht & Hr & _ & Hc & _).
  repeat split; assumption.
Qed.

(** ** The start of wasm_app *)

Section Startup.
Context {E : Type} {engine : Simulation E}.

Lemma WasmApp_redraw_extends (p : Page E) :
  calls (fst (WasmApp.redraw p)) = calls p ++ issued WasmApp.redraw p.
Proof.
  rewrite WasmApp_redraw_issued.
  destruct (step (simulation p)) as [e'|] eqn:Hs.
  - destruct (world e') as [w|] eqn:Hw.
    + rewrite (WasmApp_redraw_normal p e' w Hs Hw); reflexivity.
    + rewrite (WasmApp_redraw_world_thrown p e' Hs Hw); reflexivity.
  - rewrite (WasmApp_redraw_step_thrown p Hs); reflexivity.
Qed.

Lemma WasmApp_main_run (p : Page E) (w : World) :
  world (simulation p) = Normal w ->
  WasmApp.main p =
  WasmApp.redraw
    (mkPage (window p) (sized_canvas (window p) (canvas p))
       (controllerText p) (simulation p) (frameRequests p)
       (calls p ++ wasm_startup (sized_canvas (window p) (canvas p)) w)).
Proof.
  intros Hw; unfold WasmApp.main.
  erewrite bind_normal by apply WasmApp_size_viewport_run.
  erewrite bind_normal by (apply WasmApp_draw_animals_normal; exact Hw).
  unfold log;
    cbn [window canvas controllerText simulation frameRequests calls].
  erewrite bind_normal by (apply WasmApp_draw_food_normal; exact Hw).
  unfold log, wasm_startup;
    cbn [window canvas controllerText simulation frameRequests calls].
  repeat (rewrite <- app_assoc; cbn [app]); reflexivity.
Qed.
End Startup.

(** C10.  The start of wasm_app.  When the script loads and the engine
    answers [world], the animals and the food of the engine's initial world
    are drawn once each, before the first frame: the calls of the script are
    the two queries of the world with the draw calls, and then the calls of
    the first [redraw]; no [step] and no [clearRect] is among the former, the
    engine is still in its initial state when the first frame begins, and
    that frame begins with [clearRect] and [step]. *)
Theorem startup_draw {E} {engine : Simulation E} (p : Page E) (w : World) :
  world (simulation p) = Normal w ->
  let c := sized_canvas (window p) (canvas p) in
  let p1 := mkPage (window p) c (controllerText p) (simulation p)
              (frameRequests p) (calls p ++ wasm_startup c w) in
  WasmApp.main p = WasmApp.redraw p1
  /\ issued WasmApp.main p = wasm_startup c w ++ issued WasmApp.redraw p1
  /\ filter is_draw (wasm_startup c w) =
       map (fun a => CallFillAnimal (Animal.x a * width c)
                       (Animal.y a * height c) (Animal.rotation a))
           (animals w)
       ++ map (fun f => CallFillFood (Food.x f * width c) (Food.y f * height c))
            (food w)
  /\ count is_step (wasm_startup c w) = 0%nat
  /\ count is_clear (wasm_startup c w) = 0%nat
  /\ count is_fillAnimal (wasm_startup c w) = length (animals w)
  /\ count is_fillFood (wasm_startup c w) = length (food w)
  /\ nth_error (issued WasmApp.redraw p1) 0 =
       Some (ClearRect 0 0 (width c) (height c))
  /\ nth_error (issued WasmApp.redraw p1) 1 = Some EngineStep.
Proof.
  intros Hw; cbv zeta.
  repeat match goal with |- _ /\ _ => split end.
  - apply WasmApp_main_run; exact Hw.
  - apply issued_calls.
    rewrite (WasmApp_main_run p w Hw), WasmApp_redraw_extends.
    cbn [calls]; rewrite <- app_assoc; reflexivity.
  - unfold wasm_startup; rewrite !filter_app.
    rewrite filter_draw_animals, filter_draw_food; reflexivity.
  - unfold wasm_startup; count_frame.
  - unfold wasm_startup; count_frame.
  - unfold wasm_startup; count_frame.
  - unfold wasm_startup; count_frame.
  - apply WasmApp_redraw_clears.
  - rewrite WasmApp_redraw_issued.
    destruct (step _) as [e'|]; [|reflexivity].
    destruct (world e') as [w'|]; reflexivity.
Qed.

Lemma startup_draw_witness :
  world (simulation (stub_page (stub NoFault))) = Normal two_animals_one_food
  /\ count is_step
       (wasm_startup
          (sized_canvas (window (stub_page (stub NoFault)))
             (canvas (stub_page (stub NoFault))))
          two_animals_one_food) = 0%nat
  /\ count is_fillAnimal
       (wasm_startup
          (sized_canvas (window (stub_page (stub NoFault)))
             (canvas (stub_page (stub NoFault))))
          two_animals_one_food) = 2%nat.
Proof.
  assert (Hw : world (simulation (stub_page (stub NoFault))) =
               Normal two_animals_one_food) by reflexivity.
  split; [exact Hw|].
  destruct (startup_draw (stub_page (stub NoFault)) two_animals_one_food Hw)
    as (_ & _ & _ & Hs & _ & Ha & _).
  split; [exact Hs | exact Ha].
Defined.

(** ** Further properties: the shape of an agent *)

Lemma legs_equidistant cx cy size r a :
  distance (vertex cx cy size r) (vertex cx cy size (r + a)) =
  distance (vertex cx cy size r) (vertex cx cy size (r - a)).
Proof.
  unfold distance, vertex; simpl; f_equal.
  rewrite cos_plus, sin_plus, cos_minus, sin_minus; ring.
Qed.

Lemma vertex_within_box cx cy size angle :
  0 <= size -> within_box cx cy size (vertex cx cy size angle).
Proof.
  intros Hsize; unfold within_box, vertex; simpl.
  pose proof (COS_bound angle) as [Hc1 Hc2].
  pose proof (SIN_bound angle) as [Hs1 Hs2].
  repeat split; nra.
Qed.

Lemma path_vertices_app (l1 l2 : list call) :
  path_vertices (l1 ++ l2) = path_vertices l1 ++ path_vertices l2.
Proof. apply flat_map_app. Qed.

Lemma path_vertices_agent size color cx cy rotation :
  path_vertices
    (CallFillAnimal cx cy rotation :: agent_calls size color cx cy rotation) =
  [vertex cx cy size rotation;
   vertex cx cy size (rotation + 7 * PI / 9);
   vertex cx cy size (rotation - 7 * PI / 9);
   vertex cx cy size rotation].
Proof. reflexivity. Qed.

(** X1.  The triangle of an agent is isosceles with its apex at the head: the
    path of [fillAnimal] goes through four points, the head, the two legs and
    the head again, and the two legs are at the same distance from the head,
    whatever the centre, the rotation and the canvas.  Both scripts. *)
Theorem agent_isosceles {E} (p : Page E) (cx cy r : R) :
  match path_vertices (issued (WasmApp.fillAnimal cx cy r) p) with
  | [head; leg1; leg2; back] =>
      back = head /\ distance head leg1 = distance head leg2
  | _ => False
  end
  /\ match path_vertices (issued (SimulationView.fillAnimal cx cy r) p) with
     | [head; leg1; leg2; back] =>
         back = head /\ distance head leg1 = distance head leg2
     | _ => False
     end.
Proof.
  rewrite (issued_log _ _ _ _ (WasmApp_fillAnimal_run p cx cy r)).
  rewrite (issued_log _ _ _ _ (SimulationView_fillAnimal_run p cx cy r)).
  rewrite !path_vertices_agent; cbv beta iota.
  split; (split; [reflexivity|]).
  - exact (legs_equidistant cx cy _ r (7 * PI / 9)).
  - exact (legs_equidistant cx cy _ r (7 * PI / 9)).
Qed.

(** X2.  An agent fits in the square of half side [size] around its centre:
    on a canvas of non-negative width every point of the path of
    [fillAnimal] is within [size = ratio * width] of the centre on both
    axes.  Both scripts. *)
Theorem agent_within_box {E} (p : Page E) (cx cy r : R) :
  0 <= width (canvas p) ->
  Forall (within_box cx cy (0.015 * width (canvas p)))
    (path_vertices (issued (WasmApp.fillAnimal cx cy r) p))
  /\ Forall (within_box cx cy (0.01 * width (canvas p)))
       (path_vertices (issued (SimulationView.fillAnimal cx cy r) p)).
Proof.
  intros Hwidth.
  rewrite (issued_log _ _ _ _ (WasmApp_fillAnimal_run p cx cy r)).
  rewrite (issued_log _ _ _ _ (SimulationView_fillAnimal_run p cx cy r)).
  rewrite !path_vertices_agent.
  split; repeat apply Forall_cons; try apply Forall_nil;
    apply vertex_within_box; apply Rmult_le_pos; try assumption;
    unfold WasmApp.ANIMAL_SIZE; lra.
Qed.

Lemma agent_within_box_witness :
  0 <= width (canvas (stub_page (stub NoFault)))
  /\ Forall (within_box 150 75 (0.015 * width (canvas (stub_page (stub NoFault)))))
       (path_vertices
          (issued (WasmApp.fillAnimal 150 75 1) (stub_page (stub NoFault)))).
Proof.
  assert (Hwidth : 0 <= width (canvas (stub_page (stub NoFault))))
    by (simpl; lra).
  split; [exact Hwidth|].
  exact (proj1 (agent_within_box (stub_page (stub NoFault)) 150 75 1 Hwidth)).
Defined.

Lemma vertices_within_margin size color c (l : list Animal.t) :
  0 <= size -> 0 <= width c -> 0 <= height c ->
  Forall in_unit_square l ->
  Forall (within_margin c (size * width c))
    (path_vertices (flat_map (animal_on size color c) l)).
Proof.
  intros Hsize Hw Hh Hl.
  assert (Hm : 0 <= size * width c) by now apply Rmult_le_pos.
  induction Hl as [|a l [[Hx0 Hx1] [Hy0 Hy1]] Hl IH]; [constructor|].
  cbn [flat_map]; rewrite path_vertices_app; apply Forall_app; split;
    [|exact IH].
  unfold animal_on; rewrite path_vertices_agent.
  assert (Hbox : forall angle,
            within_margin c (size * width c)
              (vertex (Animal.x a * width c) (Animal.y a * height c)
                 (size * width c) angle)).
  { intros angle.
    destruct (vertex_within_box (Animal.x a * width c)
                (Animal.y a * height c) (size * width c) angle Hm)
      as [[Hb1 Hb2] [Hb3 Hb4]].
    unfold within_margin; repeat split; nra. }
  repeat apply Forall_cons; try apply Forall_nil; apply Hbox.
Qed.

(** X4.  Animals inside the unit square stay on the canvas up to the size of
    an agent: when every animal has [x] and [y] in [[0,1]] and the canvas has
    non-negative width and height, every point of every path drawn by
    [draw_animals] (wasm_app) and [drawAnimals] ([SimulationView]) lies in
    the canvas widened by [ratio * width] on each side. *)
Theorem animals_within_margin {E} {engine : Simulation E} (p : Page E)
  (w : World) (la : list Animal.t) :
  world (simulation p) = Normal w ->
  0 <= width (canvas p) ->
  0 <= height (canvas p) ->
  Forall in_unit_square (animals w) ->
  Forall in_unit_square la ->
  Forall (within_margin (canvas p) (0.015 * width (canvas p)))
    (path_vertices (issued WasmApp.draw_animals p))
  /\ Forall (within_margin (canvas p) (0.01 * width (canvas p)))
       (path_vertices (issued (SimulationView.drawAnimals la) p)).
Proof.
  intros Hworld Hw Hh Hanimals Hla; split.
  - rewrite (issued_log _ _ _ _ (WasmApp_draw_animals_normal p w Hworld)).
    change (path_vertices (EngineWorld :: ?l)) with (path_vertices l).
    apply vertices_within_margin; try assumption.
    unfold WasmApp.ANIMAL_SIZE; lra.
  - rewrite (issued_log _ _ _ _ (SimulationView_drawAnimals_run la p)).
    apply vertices_within_margin; try assumption; lra.
Qed.

Lemma animals_within_margin_witness :
  world (simulation
           (stub_page (mkStub one_animal_inside 0 0 None NoFault)))
    = Normal one_animal_inside
  /\ Forall (within_margin
               (canvas (stub_page (mkStub one_animal_inside 0 0 None NoFault)))
               (0.015 * width
                  (canvas
                     (stub_page (mkStub one_animal_inside 0 0 None NoFault)))))
       (path_vertices
          (issued WasmApp.draw_animals
             (stub_page (mkStub one_animal_inside 0 0 None NoFault)))).
Proof.
  assert (Hin : Forall in_unit_square (animals one_animal_inside)).
  { apply Forall_cons; [|apply Forall_nil].
    unfold in_unit_square; simpl; lra. }
  assert (Hworld : world (simulation
                     (stub_page (mkStub one_animal_inside 0 0 None NoFault)))
                   = Normal one_animal_inside) by reflexivity.
  assert (Hw : 0 <= width (canvas
                 (stub_page (mkStub one_animal_inside 0 0 None NoFault))))
    by (simpl; lra).
  assert (Hh : 0 <= height (canvas
                 (stub_page (mkStub one_animal_inside 0 0 None NoFault))))
    by (simpl; lra).
  split; [exact Hworld|].
  exact (proj1 (animals_within_margin
                  (stub_page (mkStub one_animal_inside 0 0 None NoFault))
                  one_animal_inside (animals one_animal_inside)
                  Hworld Hw Hh Hin Hin)).
Defined.

(** ** Further properties: what a frame paints *)

Lemma render_from_app (c : Context2D) (l1 l2 : list call) :
  render_from c (l1 ++ l2) = render_from (render_from c l1) l2.
Proof. unfold render_from; apply fold_left_app. Qed.

Lemma painted_animals (c0 : Context2D) size color cv (l : list Animal.t) :
  painted (render_from c0 (flat_map (animal_on size color cv) l)) =
  painted c0
  ++ map (fun a => agent_shape (size * width cv) color
                     (Animal.x a * width cv) (Animal.y a * height cv)
                     (Animal.rotation a)) l.
Proof.
  revert c0; induction l as [|a l IH]; intros c0; cbn [flat_map map].
  - now rewrite app_nil_r.
  - rewrite render_from_app; unfold animal_on at 1.
    rewrite render_agent, IH; cbn [painted].
    rewrite <- app_assoc; reflexivity.
Qed.

Lemma painted_food (c0 : Context2D) size color cv (l : list Food.t) :
  painted (render_from c0 (flat_map (food_on size color cv) l)) =
  painted c0
  ++ map (fun f => food_shape (size * width cv) color
                     (Food.x f * width cv) (Food.y f * height cv)) l.
Proof.
  revert c0; induction l as [|a l IH]; intros c0; cbn [flat_map map].
  - now rewrite app_nil_r.
  - rewrite render_from_app; unfold food_on at 1.
    rewrite render_food, IH; cbn [painted].
    rewrite <- app_assoc; reflexivity.
Qed.

Lemma painted_wasm_frame (c0 : Context2D) cv w :
  painted (render_from c0 (wasm_frame cv w)) =
  painted c0 ++ frame_picture 0.015 "gray" 0.005 "green" cv w.
Proof.
  unfold wasm_frame, frame_picture.
  rewrite !render_from_app.
  change (render_from ?c [RequestAnimationFrame]) with c.
  rewrite painted_food.
  change (render_from ?c [EngineWorld]) with c.
  rewrite painted_animals; cbn [render_from fold_left context_step painted].
  rewrite <- !app_assoc; reflexivity.
Qed.

Lemma painted_index_scheduled (c0 : Context2D) cv w :
  painted (render_from c0 (index_scheduled cv w)) =
  painted c0
  ++ Cleared 0 0 (width cv) (width cv)
     :: tl (frame_picture 0.01 "#758b9e" 0.003 "#b4a794" cv w).
Proof.
  unfold index_scheduled, frame_picture; cbn [tl].
  rewrite !render_from_app.
  change (render_from ?c [RequestAnimationFrame]) with c.
  rewrite painted_food.
  change (render_from ?c [EngineWorld]) with c.
  rewrite painted_animals; cbn [render_from fold_left context_step painted].
  rewrite <- !app_assoc; reflexivity.
Qed.

Section Pages.
Context {E : Type} {engine : Simulation E}.
Variable Number_toString : R -> string.

(** What a frame of wasm_app leaves untouched, whatever the engine does. *)
Lemma WasmApp_redraw_page (p : Page E) :
  window (fst (WasmApp.redraw p)) = window p
  /\ canvas (fst (WasmApp.redraw p)) = canvas p
  /\ controllerText (fst (WasmApp.redraw p)) = controllerText p.
Proof.
  destruct (step (simulation p)) as [e'|] eqn:Hs.
  - destruct (world e') as [w|] eqn:Hw.
    + rewrite (WasmApp_redraw_normal p e' w Hs Hw); repeat split.
    + rewrite (WasmApp_redraw_world_thrown p e' Hs Hw); repeat split.
  - rewrite (WasmApp_redraw_step_thrown p Hs); repeat split.
Qed.

(** The window, the canvas and the log after a frame of [index.js],
    whatever the engine does. *)
Lemma Index_redraw_page (p : Page E) :
  window (fst (Index.redraw Number_toString p)) = window p
  /\ canvas (fst (Index.redraw Number_toString p)) =
     reset_canvas (window p) (canvas p)
  /\ calls (fst (Index.redraw Number_toString p)) =
     calls p ++ issued (Index.redraw Number_toString) p.
Proof.
  rewrite (Index_redraw_issued Number_toString); cbv zeta.
  destruct (step (simulation p)) as [e'|] eqn:Hs.
  2:{ rewrite (Index_redraw_step_thrown Number_toString p Hs).
      repeat split. }
  destruct (prev_generation_statistics e') as [stats|] eqn:Hst.
  2:{ rewrite (Index_redraw_statistics_thrown Number_toString p e' Hs Hst).
      repeat split. }
  destruct (world e') as [w|] eqn:Hw.
  2:{ rewrite (Index_redraw_world_thrown Number_toString p e' stats Hs Hst Hw).
      repeat split. }
  destruct (generation e') as [g|] eqn:Hg.
  2:{ rewrite (Index_redraw_generation_thrown Number_toString p e' stats w
                 Hs Hst Hw Hg).
      repeat split. }
  destruct (generation_steps e') as [s|] eqn:Hgs.
  - rewrite (Index_redraw_normal Number_toString p e' stats w g s
               Hs Hst Hw Hg Hgs); repeat split.
  - rewrite (Index_redraw_generation_steps_thrown Number_toString p e' stats
               w g Hs Hst Hw Hg Hgs); repeat split.
Qed.

(** The paintings of a frame of [index.js] that reached the drawing. *)
Lemma Index_redraw_painted (p : Page E) e' stats w :
  step (simulation p) = Normal e' ->
  prev_generation_statistics e' = Normal stats ->
  world e' = Normal w ->
  painted (render (calls (fst (Index.redraw Number_toString p)))) =
  painted (render (calls p))
  ++ Cleared 0 0 (width (reset_canvas (window p) (canvas p)))
       (width (reset_canvas (window p) (canvas p)))
     :: tl (frame_picture 0.01 "#758b9e" 0.003 "#b4a794"
              (reset_canvas (window p) (canvas p)) w).
Proof.
  intros Hs Hst Hw.
  destruct (Index_redraw_page p) as (_ & _ & ->).
  rewrite (Index_redraw_issued Number_toString); cbv zeta.
  rewrite Hs, Hst, Hw, render_app.
  destruct (generation e') as [g|].
  - destruct (generation_steps e') as [s|].
    + unfold index_frame; rewrite render_from_app.
      change (render_from ?c [EngineGeneration; EngineGenerationSteps;
                              SetInnerHTML ?h]) with c.
      apply painted_index_scheduled.
    + rewrite render_from_app.
      change (render_from ?c [EngineGeneration; EngineGenerationSteps])
        with c.
      apply painted_index_scheduled.
  - rewrite render_from_app.
    change (render_from ?c [EngineGeneration]) with c.
    apply painted_index_scheduled.
Qed.
End Pages.

Lemma pixels_pointwise covers (qs : list painting) (b b' : bitmap) pt :
  b pt = b' pt ->
  fold_left (paint_on covers) qs b pt = fold_left (paint_on covers) qs b' pt.
Proof.
  revert b b'; induction qs as [|q qs IH]; intros b b' Hb; simpl.
  - exact Hb.
  - apply IH; destruct q as [region style | x y w h]; simpl.
    + destruct (covers region pt); [reflexivity | exact Hb].
    + destruct (in_rect x y w h pt); [reflexivity | exact Hb].
Qed.

Lemma pixels_after_clear covers (ps qs : list painting) x y w h pt :
  in_rect x y w h pt = true ->
  pixels covers (ps ++ Cleared x y w h :: qs) pt = pixels covers qs pt.
Proof.
  intros Hin; unfold pixels; rewrite fold_left_app; simpl.
  apply pixels_pointwise; simpl; now rewrite Hin.
Qed.

Lemma redraw_painted {E} {engine : Simulation E}
  (Number_toString : R -> string) (p : Page E) (e' : E)
  (stats : option Statistics.t) (w : World) :
  step (simulation p) = Normal e' ->
  prev_generation_statistics e' = Normal stats ->
  world e' = Normal w ->
  painted (render (calls (fst (WasmApp.redraw p)))) =
    painted (render (calls p))
    ++ frame_picture 0.015 "gray" 0.005 "green" (canvas p) w
  /\ painted (render (calls (fst (Index.redraw Number_toString p)))) =
    painted (render (calls p))
    ++ Cleared 0 0 (width (reset_canvas (window p) (canvas p)))
         (width (reset_canvas (window p) (canvas p)))
       :: tl (frame_picture 0.01 "#758b9e" 0.003 "#b4a794"
                (reset_canvas (window p) (canvas p)) w).
Proof.
  intros Hs Hst Hw; split.
  - rewrite (WasmApp_redraw_normal p e' w Hs Hw); cbn [fst calls].
    rewrite render_app; apply painted_wasm_frame.
  - apply (Index_redraw_painted Number_toString p e' stats w Hs Hst Hw).
Qed.

Lemma in_rect_true x y w h (pt : R * R) :
  x <= fst pt <= x + w -> y <= snd pt <= y + h -> in_rect x y w h pt = true.
Proof.
  intros [Hx1 Hx2] [Hy1 Hy2]; unfold in_rect.
  destruct (Rle_dec x (fst pt)); [|contradiction].
  destruct (Rle_dec (fst pt) (x + w)); [|contradiction].
  destruct (Rle_dec y (snd pt)); [|contradiction].
  destruct (Rle_dec (snd pt) (y + h)); [reflexivity | contradiction].
Qed.

Lemma in_rect_bounds x y w h (pt : R * R) :
  in_rect x y w h pt = true ->
  x <= fst pt <= x + w /\ y <= snd pt <= y + h.
Proof.
  unfold in_rect.
  destruct (Rle_dec x (fst pt)); [|discriminate].
  destruct (Rle_dec (fst pt) (x + w)); [|discriminate].
  destruct (Rle_dec y (snd pt)); [|discriminate].
  destruct (Rle_dec (snd pt) (y + h)); [|discriminate].
  intros _; repeat split; assumption.
Qed.

Lemma in_rect_reset (w : Window) (c : Canvas) (pt : R * R) :
  in_rect 0 0 (width (reset_canvas w c)) (height (reset_canvas w c)) pt = true ->
  in_rect 0 0 (width (reset_canvas w c)) (width (reset_canvas w c)) pt = true.
Proof.
  intros Hin; apply in_rect_bounds in Hin as [Hx [Hy1 Hy2]].
  apply in_rect_true; [exact Hx|].
  split; [exact Hy1|].
  cbn [reset_canvas width height] in *.
  pose proof (IZR_le _ _
                (canvas_dimension_height_width
                   (IZR (logical_size w) * pixel_ratio w))) as Hle.
  lra.
Qed.

(** X5.  What a frame paints.  When the step and the queries before the
    drawing succeed, a frame adds to what was painted the cleared rectangle
    of the whole canvas, then one triangle per animal in the order of the
    engine, then one circle per food item in the order of the engine, and
    nothing else; the food is therefore painted over the animals.  Both
    scripts; in [index.js] the canvas is the one [reset] has just sized and
    the cleared rectangle has the width of the canvas on both sides. *)
Theorem frame_paints {E} {engine : Simulation E}
  (Number_toString : R -> string) (p : Page E) (e' : E)
  (stats : option Statistics.t) (w : World) :
  step (simulation p) = Normal e' ->
  prev_generation_statistics e' = Normal stats ->
  world e' = Normal w ->
  painted (render (calls (fst (WasmApp.redraw p)))) =
    painted (render (calls p))
    ++ frame_picture 0.015 "gray" 0.005 "green" (canvas p) w
  /\ painted (render (calls (fst (Index.redraw Number_toString p)))) =
    painted (render (calls p))
    ++ Cleared 0 0 (width (reset_canvas (window p) (canvas p)))
         (width (reset_canvas (window p) (canvas p)))
       :: tl (frame_picture 0.01 "#758b9e" 0.003 "#b4a794"
                (reset_canvas (window p) (canvas p)) w).
Proof. apply redraw_painted. Qed.

Lemma frame_paints_witness :
  painted (render (calls (fst (WasmApp.redraw (stub_page (stub NoFault)))))) =
    painted (render (calls (stub_page (stub NoFault))))
    ++ frame_picture 0.015 "gray" 0.005 "green"
         (canvas (stub_page (stub NoFault))) two_animals_one_food.
Proof.
  exact (proj1 (frame_paints (engine := Stub_Simulation) four_numbers
                  (stub_page (stub NoFault))
                  (mkStub two_animals_one_food 3 41 None NoFault) None
                  two_animals_one_food eq_refl eq_refl eq_refl)).
Defined.

(** X6.  No trails.  After a frame that reached the drawing, the colour of a
    point of the rectangle from [(0, 0)] with the width and the height of the
    canvas is decided by the triangles and circles of that frame alone:
    whatever was painted before, by earlier frames or by the start of
    wasm_app, shows nowhere in that rectangle.  Both scripts. *)
Theorem frame_leaves_no_trail {E} {engine : Simulation E}
  (Number_toString : R -> string) (covers : list subpath -> R * R -> bool)
  (p : Page E) (e' : E) (stats : option Statistics.t) (w : World)
  (pt : R * R) :
  step (simulation p) = Normal e' ->
  prev_generation_statistics e' = Normal stats ->
  world e' = Normal w ->
  (in_rect 0 0 (width (canvas p)) (height (canvas p)) pt = true ->
   pixels covers (painted (render (calls (fst (WasmApp.redraw p))))) pt =
   pixels covers
     (tl (frame_picture 0.015 "gray" 0.005 "green" (canvas p) w)) pt)
  /\ (in_rect 0 0 (width (reset_canvas (window p) (canvas p)))
        (height (reset_canvas (window p) (canvas p))) pt = true ->
      pixels covers
        (painted (render (calls (fst (Index.redraw Number_toString p))))) pt =
      pixels covers
        (tl (frame_picture 0.01 "#758b9e" 0.003 "#b4a794"
               (reset_canvas (window p) (canvas p)) w)) pt).
Proof.
  intros Hs Hst Hw.
  destruct (redraw_painted Number_toString p e' stats w Hs Hst Hw)
    as [Hwasm Hindex].
  split; intros Hin.
  - rewrite Hwasm; unfold frame_picture; cbn [tl].
    now apply pixels_after_clear.
  - rewrite Hindex; unfold frame_picture; cbn [tl].
    now apply pixels_after_clear, in_rect_reset.
Qed.

Lemma frame_leaves_no_trail_witness :
  in_rect 0 0 (width (canvas (stub_page (stub NoFault))))
    (height (canvas (stub_page (stub NoFault)))) (10, 10) = true
  /\ forall covers,
       pixels covers
         (painted (render (calls (fst (WasmApp.redraw
                                         (stub_page (stub NoFault))))))) (10, 10)
       = pixels covers
           (tl (frame_picture 0.015 "gray" 0.005 "green"
                  (canvas (stub_page (stub NoFault))) two_animals_one_food))
           (10, 10).
Proof.
  assert (Hin : in_rect 0 0 (width (canvas (stub_page (stub NoFault))))
                  (height (canvas (stub_page (stub NoFault)))) (10, 10) = true)
    by (apply in_rect_true; simpl; lra).
  split; [exact Hin|].
  intros covers.
  exact (proj1 (frame_leaves_no_trail (engine := Stub_Simulation) four_numbers
                  covers (stub_page (stub NoFault))
                  (mkStub two_animals_one_food 3 41 None NoFault) None
                  two_animals_one_food (10, 10) eq_refl eq_refl eq_refl) Hin).
Defined.

(** X7.  A frame that fails before the drawing leaves a blank canvas: when
    [step] or [world] throws in wasm_app, or [step],
    [prev_generation_statistics] or [world] throws in [index.js], the frame
    has cleared the whole canvas and painted nothing on it. *)
Theorem failed_frame_is_blank {E} {engine : Simulation E}
  (Number_toString : R -> string) (p : Page E) :
  (wasm_fails (simulation p) ->
   painted (render (calls (fst (WasmApp.redraw p)))) =
   painted (render (calls p))
   ++ [Cleared 0 0 (width (canvas p)) (height (canvas p))])
  /\ (index_fails_before_scheduling (simulation p) ->
      painted (render (calls (fst (Index.redraw Number_toString p)))) =
      painted (render (calls p))
      ++ [Cleared 0 0 (width (reset_canvas (window p) (canvas p)))
            (width (reset_canvas (window p) (canvas p)))]).
Proof.
  split.
  - intros [Hs | (e' & Hs & Hw)].
    + rewrite (WasmApp_redraw_step_thrown p Hs); cbn [fst calls log].
      rewrite render_app; reflexivity.
    + rewrite (WasmApp_redraw_world_thrown p e' Hs Hw); cbn [fst calls].
      rewrite render_app; reflexivity.
  - intros [Hs | (e' & Hs & [Hst | (stats & Hst & Hw)])].
    + rewrite (Index_redraw_step_thrown Number_toString p Hs).
      cbn [fst calls]; rewrite render_app; reflexivity.
    + rewrite (Index_redraw_statistics_thrown Number_toString p e' Hs Hst).
      cbn [fst calls]; rewrite render_app; reflexivity.
    + rewrite (Index_redraw_world_thrown Number_toString p e' stats
                 Hs Hst Hw).
      cbn [fst calls]; rewrite render_app; reflexivity.
Qed.

Lemma failed_frame_is_blank_witness :
  wasm_fails (simulation (stub_page (stub WorldThrows)))
  /\ painted (render (calls (fst (WasmApp.redraw
                                    (stub_page (stub WorldThrows)))))) =
     painted (render (calls (stub_page (stub WorldThrows))))
     ++ [Cleared 0 0 (width (canvas (stub_page (stub WorldThrows))))
           (height (canvas (stub_page (stub WorldThrows))))].
Proof.
  assert (Hf : wasm_fails (simulation (stub_page (stub WorldThrows)))).
  { right; exists (mkStub two_animals_one_food 3 41 None WorldThrows).
    split; reflexivity. }
  split; [exact Hf|].
  exact (proj1 (failed_frame_is_blank (engine := Stub_Simulation)
                  four_numbers (stub_page (stub WorldThrows))) Hf).
Defined.

(** ** Further properties: the size of the canvas *)



(** X9.  wasm_app never sizes the canvas after the start: a frame leaves the
    window, the canvas with its width, height and style, and the statistics
    element as they were, whatever the engine does; a change of the pixel
    ratio or of the layout after the script has loaded is not followed. *)
Theorem wasm_frame_keeps_canvas {E} {engine : Simulation E} (p : Page E) :
  window (fst (WasmApp.redraw p)) = window p
  /\ canvas (fst (WasmApp.redraw p)) = canvas p
  /\ controllerText (fst (WasmApp.redraw p)) = controllerText p.
Proof. apply WasmApp_redraw_page. Qed.



(** ** Further properties: the animation over many frames *)

Section Animation.
Context {E : Type} {engine : Simulation E}.
Variable Number_toString : R -> string.

Lemma animate_next (redraw : JS E unit) (n : nat) (p : Page E) :
  frameRequests p = 1%nat ->
  animate redraw (S n) p =
  animate redraw n
    (fst (redraw (mkPage (window p) (canvas p) (controllerText p)
                    (simulation p) 0 (calls p)))).
Proof. intros Hp; simpl; rewrite Hp; reflexivity. Qed.

Lemma wasm_animate (Inv : E -> Prop) :
  wasm_reliable Inv ->
  forall n (p : Page E),
    Inv (simulation p) -> frameRequests p = 1%nat ->
    frameRequests (animate WasmApp.redraw n p) = 1%nat
    /\ Inv (simulation (animate WasmApp.redraw n p))
    /\ exists l,
         calls (animate WasmApp.redraw n p) = calls p ++ l
         /\ count is_step l = n
         /\ count is_clear l = n
         /\ count is_schedule l = n.
Proof.
  intros Hrel; induction n as [|n IH]; intros p Hinv Hp.
  - simpl; repeat split; try assumption.
    exists []; rewrite app_nil_r; repeat split.
  - rewrite (animate_next _ _ _ Hp).
    destruct (Hrel _ Hinv) as ((e' & Hs & Hinv') & _).
    destruct (Hrel _ Hinv') as (_ & (w & Hw)).
    rewrite (WasmApp_redraw_normal
               (mkPage (window p) (canvas p) (controllerText p)
                  (simulation p) 0 (calls p)) e' w Hs Hw).
    cbn [fst window canvas controllerText simulation frameRequests calls].
    match goal with
    | |- context [animate _ n ?q] =>
        destruct (IH q Hinv' eq_refl) as (Hreq & Hinv'' & l & Hl & H1 & H2 & H3)
    end.
    cbn [calls] in Hl.
    repeat split; try assumption.
    exists (wasm_frame (canvas p) w ++ l).
    rewrite Hl, <- app_assoc.
    repeat split; rewrite count_app; count_frame.
Qed.

Lemma index_frame_in_sync (p : Page E) e' stats w g s :
  step (simulation p) = Normal e' ->
  prev_generation_statistics e' = Normal stats ->
  world e' = Normal w ->
  generation e' = Normal g ->
  generation_steps e' = Normal s ->
  panel_in_sync Number_toString (fst (Index.redraw Number_toString p)).
Proof.
  intros Hs Hst Hw Hg Hgs.
  rewrite (Index_redraw_normal Number_toString p e' stats w g s
             Hs Hst Hw Hg Hgs).
  exists g, s, stats; repeat split; assumption.
Qed.

Lemma index_animate (Inv : E -> Prop) :
  index_reliable Inv ->
  forall n (p : Page E),
    Inv (simulation p) -> frameRequests p = 1%nat ->
    panel_in_sync Number_toString p ->
    frameRequests (animate (Index.redraw Number_toString) n p) = 1%nat
    /\ Inv (simulation (animate (Index.redraw Number_toString) n p))
    /\ panel_in_sync Number_toString
         (animate (Index.redraw Number_toString) n p)
    /\ exists l,
         calls (animate (Index.redraw Number_toString) n p) = calls p ++ l
         /\ count is_step l = n
         /\ count is_schedule l = n
         /\ count is_present l = n.
Proof.
  intros Hrel; induction n as [|n IH]; intros p Hinv Hp Hsync.
  - simpl; repeat split; try assumption.
    exists []; rewrite app_nil_r; repeat split.
  - rewrite (animate_next _ _ _ Hp).
    destruct (Hrel _ Hinv) as ((e' & Hs & Hinv') & _).
    destruct (Hrel _ Hinv')
      as (_ & (w & Hw) & (stats & Hst) & (g & Hg) & (s & Hgs)).
    pose proof (index_frame_in_sync
                  (mkPage (window p) (canvas p) (controllerText p)
                     (simulation p) 0 (calls p)) e' stats w g s
                  Hs Hst Hw Hg Hgs) as Hsync'.
    rewrite (Index_redraw_normal Number_toString
               (mkPage (window p) (canvas p) (controllerText p)
                  (simulation p) 0 (calls p)) e' stats w g s
               Hs Hst Hw Hg Hgs) in *.
    cbn [fst window canvas controllerText simulation frameRequests calls]
      in *.
    match goal with
    | |- context [animate _ n ?q] =>
        destruct (IH q Hinv' eq_refl Hsync')
          as (Hreq & Hinv'' & Hsync'' & l & Hl & H1 & H2 & H3)
    end.
    cbn [calls] in Hl.
    repeat split; try assumption.
    eexists; rewrite Hl, <- app_assoc; split; [reflexivity|].
    repeat split; rewrite count_app; count_frame.
Qed.

Lemma index_animate_frozen (Inv : E -> Prop) :
  generation_unavailable Inv ->
  forall n (p : Page E),
    Inv (simulation p) -> frameRequests p = 1%nat ->
    frameRequests (animate (Index.redraw Number_toString) n p) = 1%nat
    /\ Inv (simulation (animate (Index.redraw Number_toString) n p))
    /\ controllerText (animate (Index.redraw Number_toString) n p)
       = controllerText p
    /\ exists l,
         calls (animate (Index.redraw Number_toString) n p) = calls p ++ l
         /\ count is_step l = n
         /\ count is_schedule l = n
         /\ count is_present l = 0%nat.
Proof.
  intros Hrel; induction n as [|n IH]; intros p Hinv Hp.
  - simpl; repeat split; try assumption.
    exists []; rewrite app_nil_r; repeat split.
  - rewrite (animate_next _ _ _ Hp).
    destruct (Hrel _ Hinv) as ((e' & Hs & Hinv') & _).
    destruct (Hrel _ Hinv') as (_ & (w & Hw) & (stats & Hst) & Hg).
    rewrite (Index_redraw_generation_thrown Number_toString
               (mkPage (window p) (canvas p) (controllerText p)
                  (simulation p) 0 (calls p)) e' stats w Hs Hst Hw Hg).
    cbn [fst window canvas controllerText simulation frameRequests calls].
    match goal with
    | |- context [animate _ n ?q] =>
        destruct (IH q Hinv' eq_refl)
          as (Hreq & Hinv'' & Htext & l & Hl & H1 & H2 & H3)
    end.
    cbn [calls controllerText] in Hl, Htext.
    repeat split; try assumption.
    eexists; rewrite Hl, <- !app_assoc; split; [reflexivity|].
    repeat split; rewrite !count_app; count_frame.
Qed.
End Animation.

Lemma stub_wasm_reliable :
  wasm_reliable (fun e : Stub => stub_fault e = NoFault).
Proof.
  intros [w g s stats f] Hf; simpl in Hf; subst f; split.
  - eexists; split; reflexivity.
  - eexists; reflexivity.
Qed.

Lemma stub_index_reliable :
  index_reliable (fun e : Stub => stub_fault e = NoFault).
Proof.
  intros [w g s stats f] Hf; simpl in Hf; subst f.
  split; [eexists; split; reflexivity|].
  repeat split; eexists; reflexivity.
Qed.

Lemma stub_generation_unavailable :
  generation_unavailable (fun e : Stub => stub_fault e = GenerationThrows).
Proof.
  intros [w g s stats f] Hf; simpl in Hf; subst f.
  split; [eexists; split; reflexivity|].
  split; [eexists; reflexivity|].
  split; [eexists; reflexivity | reflexivity].
Qed.

(** X12.  The animation of wasm_app.  With an engine whose [step] and
    [world] do not throw, the script and the [n] frames the host runs after
    it make [n + 1] steps, each in a frame of its own that clears the canvas
    once and schedules the next frame once; exactly one frame is pending at
    the end, so frames never pile up and never overlap. *)
Theorem wasm_animation {E} {engine : Simulation E} (Inv : E -> Prop)
  (p : Page E) (n : nat) :
  wasm_reliable Inv ->
  Inv (simulation p) ->
  frameRequests p = 0%nat ->
  frameRequests (animate WasmApp.redraw n (fst (WasmApp.main p))) = 1%nat
  /\ Inv (simulation (animate WasmApp.redraw n (fst (WasmApp.main p))))
  /\ exists l,
       calls (animate WasmApp.redraw n (fst (WasmApp.main p))) = calls p ++ l
       /\ count is_step l = S n
       /\ count is_clear l = S n
       /\ count is_schedule l = S n.
Proof.
  intros Hrel Hinv Hp.
  destruct (Hrel _ Hinv) as ((e1 & Hs & Hinv1) & (w0 & Hw0)).
  destruct (Hrel _ Hinv1) as (_ & (w1 & Hw1)).
  rewrite (WasmApp_main_run p w0 Hw0).
  rewrite (WasmApp_redraw_normal
             (mkPage (window p) (sized_canvas (window p) (canvas p))
                (controllerText p) (simulation p) (frameRequests p)
                (calls p
                 ++ wasm_startup (sized_canvas (window p) (canvas p)) w0))
             e1 w1 Hs Hw1).
  cbn [fst window canvas controllerText simulation frameRequests calls].
  rewrite Hp.
  match goal with
  | |- context [animate _ n ?q] =>
      destruct (wasm_animate Inv Hrel n q Hinv1 eq_refl)
        as (Hreq & Hinv' & l & Hl & H1 & H2 & H3)
  end.
  cbn [calls] in Hl.
  repeat split; try assumption.
  eexists; rewrite Hl, <- !app_assoc; split; [reflexivity|].
  unfold wasm_startup.
  repeat split; rewrite !count_app; count_frame.
Qed.

Lemma wasm_animation_witness :
  stub_fault (simulation (stub_page (stub NoFault))) = NoFault
  /\ frameRequests (stub_page (stub NoFault)) = 0%nat
  /\ frameRequests
       (animate WasmApp.redraw 3 (fst (WasmApp.main (stub_page (stub NoFault)))))
     = 1%nat.
Proof.
  split; [reflexivity|]; split; [reflexivity|].
  exact (proj1 (wasm_animation (engine := Stub_Simulation)
                  (fun e : Stub => stub_fault e = NoFault)
                  (stub_page (stub NoFault)) 3
                  stub_wasm_reliable eq_refl eq_refl)).
Defined.

(** X13.  The animation of [index.js].  With an engine none of whose calls
    throw, the script and the [n] frames the host runs after it make [n + 1]
    steps, schedule [n + 1] frames and write the statistics [n + 1] times;
    exactly one frame is pending at the end, and the statistics element then
    shows the generation, the generation steps and the statistics that the
    engine reports in the state it is left in. *)
Theorem index_animation {E} {engine : Simulation E}
  (Number_toString : R -> string) (Inv : E -> Prop) (p : Page E) (n : nat) :
  index_reliable Inv ->
  Inv (simulation p) ->
  frameRequests p = 0%nat ->
  let p' := animate (Index.redraw Number_toString) n
              (fst (Index.main Number_toString p)) in
  frameRequests p' = 1%nat
  /\ Inv (simulation p')
  /\ panel_in_sync Number_toString p'
  /\ exists l,
       calls p' = calls p ++ l
       /\ count is_step l = S n
       /\ count is_schedule l = S n
       /\ count is_present l = S n.
Proof.
  intros Hrel Hinv Hp; cbv zeta; unfold Index.main.
  destruct (Hrel _ Hinv) as ((e1 & Hs & Hinv1) & _).
  destruct (Hrel _ Hinv1)
    as (_ & (w & Hw) & (stats & Hst) & (g & Hg) & (s & Hgs)).
  pose proof (index_frame_in_sync Number_toString p e1 stats w g s
                Hs Hst Hw Hg Hgs) as Hsync.
  rewrite (Index_redraw_normal Number_toString p e1 stats w g s
             Hs Hst Hw Hg Hgs) in *.
  cbn [fst] in *; rewrite Hp in *.
  match goal with
  | |- context [animate _ n ?q] =>
      destruct (index_animate Number_toString Inv Hrel n q Hinv1 eq_refl Hsync)
        as (Hreq & Hinv' & Hsync' & l & Hl & H1 & H2 & H3)
  end.
  cbn [calls] in Hl.
  repeat split; try assumption.
  eexists; rewrite Hl, <- !app_assoc; split; [reflexivity|].
  repeat split; rewrite !count_app; count_frame.
Qed.

Lemma index_animation_witness :
  stub_fault (simulation (stub_page (stub NoFault))) = NoFault
  /\ frameRequests (stub_page (stub NoFault)) = 0%nat
  /\ panel_in_sync four_numbers
       (animate (Index.redraw four_numbers) 3
          (fst (Index.main four_numbers (stub_page (stub NoFault))))).
Proof.
  split; [reflexivity|]; split; [reflexivity|].
  destruct (index_animation (engine := Stub_Simulation) four_numbers
              (fun e : Stub => stub_fault e = NoFault)
              (stub_page (stub NoFault)) 3
              stub_index_reliable eq_refl eq_refl) as (_ & _ & Hsync & _).
  exact Hsync.
Defined.

(** X14.  An engine whose [generation] always throws does not stop
    [index.js]: every frame ends with the exception, yet the script and the
    [n] frames after it make [n + 1] steps and schedule [n + 1] frames, one
    frame is pending at the end, and the statistics element is never
    written, so it keeps the content it had when the script loaded. *)
Theorem index_animation_without_counters {E} {engine : Simulation E}
  (Number_toString : R -> string) (Inv : E -> Prop) (p : Page E) (n : nat) :
  generation_unavailable Inv ->
  Inv (simulation p) ->
  frameRequests p = 0%nat ->
  let p' := animate (Index.redraw Number_toString) n
              (fst (Index.main Number_toString p)) in
  snd (Index.main Number_toString p) = Thrown
  /\ frameRequests p' = 1%nat
  /\ controllerText p' = controllerText p
  /\ exists l,
       calls p' = calls p ++ l
       /\ count is_step l = S n
       /\ count is_schedule l = S n
       /\ count is_present l = 0%nat.
Proof.
  intros Hrel Hinv Hp; cbv zeta; unfold Index.main.
  destruct (Hrel _ Hinv) as ((e1 & Hs & Hinv1) & _).
  destruct (Hrel _ Hinv1) as (_ & (w & Hw) & (stats & Hst) & Hg).
  rewrite (Index_redraw_generation_thrown Number_toString p e1 stats w
             Hs Hst Hw Hg).
  cbn [fst snd]; rewrite Hp.
  match goal with
  | |- context [animate _ n ?q] =>
      destruct (index_animate_frozen Number_toString Inv Hrel n q Hinv1
                  eq_refl)
        as (Hreq & Hinv' & Htext & l & Hl & H1 & H2 & H3)
  end.
  cbn [calls controllerText] in Hl, Htext.
  repeat split; try assumption.
  eexists; rewrite Hl, <- !app_assoc; split; [reflexivity|].
  repeat split; rewrite !count_app; count_frame.
Qed.

Lemma index_animation_without_counters_witness :
  stub_fault (simulation (stub_page (stub GenerationThrows)))
    = GenerationThrows
  /\ frameRequests (stub_page (stub GenerationThrows)) = 0%nat
  /\ frameRequests
       (animate (Index.redraw four_numbers) 3
          (fst (Index.main four_numbers (stub_page (stub GenerationThrows)))))
     = 1%nat.
Proof.
  split; [reflexivity|]; split; [reflexivity|].
  destruct (index_animation_without_counters (engine := Stub_Simulation)
              four_numbers (fun e : Stub => stub_fault e = GenerationThrows)
              (stub_page (stub GenerationThrows)) 3
              stub_generation_unavailable eq_refl eq_refl)
    as (_ & Hreq & _).
  exact Hreq.
Defined.

(** ** Further properties: the text of the statistics element *)

Lemma replace_newlines_length (text : string) :
  String.length (replace_newlines text) =
  (String.length text + 3 * newlines text)%nat.
Proof.
  induction text as [|c rest IH]; simpl; [reflexivity|].
  destruct (Ascii.eqb c newline); simpl; rewrite IH; lia.
Qed.

(** X15.  [setControllerText] changes nothing but the line breaks: the
    content it writes has no newline character and is longer than the text
    by three characters for every newline of the text; a text without
    newline is written as it is, markup included (nothing is escaped); and
    writing the written content again leaves it unchanged. *)
Theorem setControllerText_line_breaks {E} (text : string) (p : Page E) :
  let html := controllerText (fst (Index.setControllerText text p)) in
  no_newline html = true
  /\ String.length html = (String.length text + 3 * newlines text)%nat
  /\ (no_newline text = true -> html = text)
  /\ controllerText (fst (Index.setControllerText html p)) = html.
Proof.
  cbv zeta; cbn [Index.setControllerText setInnerHTML bind record log fst
                  controllerText].
  repeat match goal with |- _ /\ _ => split end.
  - apply no_newline_replace.
  - apply replace_newlines_length.
  - apply replace_newlines_id.
  - apply replace_newlines_id, no_newline_replace.
Qed.

Lemma setControllerText_line_breaks_witness :
  no_newline "<b>3</b>" = true
  /\ controllerText
       (fst (Index.setControllerText "<b>3</b>" (stub_page (stub NoFault))))
     = "<b>3</b>"%string.
Proof.
  split; [reflexivity|].
  destruct (setControllerText_line_breaks "<b>3</b>"
              (stub_page (stub NoFault))) as (_ & _ & Hsame & _).
  exact (Hsame eq_refl).
Defined.
